(** * Log analyzer: coordinator and worker

    A shallow embedding of [coordinator.py] and [worker.py].

    - Python integers are [Z]; strings are [string] (8-bit characters); a
      dict that the code only indexes by key is a [gmap string _];
      [self.workers], whose key order feeds the round-robin, is an
      insertion-ordered association list.
    - An [async def] is modelled by its sequential body: a computation in a
      state-and-exception monad over the coordinator object which also
      collects the HTTP requests issued.  A raised exception keeps the
      mutations made before it, as in Python.
    - A request is represented by the fields the handler reads from its
      JSON body.  [print] calls are not modelled. *)

From Stdlib Require Import QArith Qcanon Ascii String.
From stdpp Require Import numbers base strings list gmap.

Open Scope Z_scope.

(** ** Python values and built-ins *)

Inductive exn : Type :=
| KeyError (key : string)
| IndexError
| AttributeError
| TypeError
| ValueError
| OSError.

Inductive outcome (A : Type) : Type :=
| Ok (a : A)
| Raise (e : exn).
Arguments Ok {A} a.
Arguments Raise {A} e.

(** JSON scalars carried inside a worker's result object. *)
Inductive jval : Type :=
| JInt (n : Z)
| JStr (s : string).

(** A JSON object, e.g. the [result] field of a submission. *)
Abbreviation jobject := (gmap string jval).

(** The values [self.results] holds under its keys: the per-worker lists
    built by [receive_results], and the numbers [process_file] stores.  A
    float is kept as the rational it denotes; the code never computes with
    one. *)
Inductive pyval : Type :=
| PInt (n : Z)
| PFloat (q : Qc)
| PList (items : list jobject).

Module Py.

(** Number of elements of [range(lo, hi, step)] for [step > 0]. *)
Definition range_len (lo hi step : Z) : nat :=
  if lo <? hi then Z.to_nat (1 + (hi - 1 - lo) / step) else 0%nat.

(** [range(start, stop, step)]; a zero step raises [ValueError], a
    negative one counts downwards. *)
Definition range (start stop step : Z) : outcome (list Z) :=
  if step =? 0 then Raise ValueError
  else if 0 <? step then
    Ok ((λ k : nat, start + Z.of_nat k * step) <$> seq 0 (range_len start stop step))
  else
    Ok ((λ k : nat, start + Z.of_nat k * step) <$> seq 0 (range_len stop start (- step))).

(** [enumerate(l)] *)
Definition enumerate {A : Type} (l : list A) : list (nat * A) :=
  zip (seq 0 (length l)) l.

(** [needle in hay] on strings. *)
Fixpoint contains (needle hay : string) : bool :=
  if String.prefix needle hay then true
  else match hay with
       | EmptyString => false
       | String _ rest => contains needle rest
       end.

(** Line boundaries of [str.splitlines] among the 8-bit characters:
    LF, VT, FF, CR, FS, GS, RS and NEL.  The two other boundaries of
    [str.splitlines], U+2028 and U+2029, are not characters of [string];
    a text that holds them is outside this model. *)
Definition is_linebreak (a : ascii) : bool :=
  let n := nat_of_ascii a in
  bool_decide (n ∈ [10; 11; 12; 13; 28; 29; 30; 133]%nat).

(** [cur] is the line read so far, last character first. *)
Fixpoint splitlines_from (cur : list ascii) (s : string) : list string :=
  match s with
  | EmptyString =>
      match cur with
      | [] => []
      | _ => [string_of_list_ascii (reverse cur)]
      end
  | String a rest =>
      if is_linebreak a then
        match a, rest with
        | "013"%char, String "010"%char rest' =>
            string_of_list_ascii (reverse cur) :: splitlines_from [] rest'
        | _, _ =>
            string_of_list_ascii (reverse cur) :: splitlines_from [] rest
        end
      else splitlines_from (a :: cur) rest
  end.

(** [s.splitlines()] *)
Definition splitlines (s : string) : list string := splitlines_from [] s.

End Py.

(** An insertion-ordered dict with string keys: assigning to a present key
    keeps its position, a new key goes last. *)
Module ODict.
Section Ops.
Context {V : Type}.

Fixpoint get (k : string) (d : list (string * V)) : option V :=
  match d with
  | [] => None
  | (k', v) :: d' => if decide (k = k') then Some v else get k d'
  end.

(** [k in d] *)
Definition mem (k : string) (d : list (string * V)) : bool :=
  bool_decide (is_Some (get k d)).

(** [d[k] = v] *)
Fixpoint set (k : string) (v : V) (d : list (string * V)) : list (string * V) :=
  match d with
  | [] => [(k, v)]
  | (k', v') :: d' =>
      if decide (k = k') then (k', v) :: d' else (k', v') :: set k v d'
  end.

(** [list(d.keys())] *)
Definition keys (d : list (string * V)) : list string := d.*1.
End Ops.
End ODict.

(** ** coordinator.py *)

(** [{"status": ...}] *)
Record WorkerInfo : Type := { status : string }.

Record Coordinator : Type := {
  workers : list (string * WorkerInfo);
  results : gmap string pyval;
  port : Z;
  file_chunks : list (Z * Z)
}.

(** [web.Response(status=..., text=...)] *)
Record Response : Type := { resp_status : Z; resp_text : string }.

(** A request issued by [send_work]:
    [session.post(f"http://localhost:{self.port}/process", json={...})].
    [post_for] is the [worker_id] argument of the [send_work] call that
    issued it; the request itself only carries the port and the JSON body. *)
Record Post : Type := {
  post_for : string;
  post_port : Z;
  json_filepath : jval;
  json_start : Z;
  json_size : Z
}.

(** Computations over the coordinator: an outcome, the coordinator after
    it, and the requests issued. *)
Definition M (A : Type) : Type := Coordinator → outcome A * Coordinator * list Post.

Definition ret {A : Type} (a : A) : M A := λ c, (Ok a, c, []).

Definition raise {A : Type} (e : exn) : M A := λ c, (Raise e, c, []).

(** Sequencing: an exception stops the computation and keeps the state
    and the requests reached so far. *)
Definition bind {A B : Type} (m : M A) (f : A → M B) : M B :=
  λ c, match m c with
       | (Ok a, c1, t1) =>
           match f a c1 with
           | (r, c2, t2) => (r, c2, t1 ++ t2)
           end
       | (Raise e, c1, t1) => (Raise e, c1, t1)
       end.

#[global] Instance M_ret : MRet M := @ret.
#[global] Instance M_bind : MBind M := λ A B f m, bind m f.

Definition get_self : M Coordinator := λ c, (Ok c, c, []).

Definition put_self (c' : Coordinator) : M unit := λ _, (Ok tt, c', []).

Definition emit (p : Post) : M unit := λ c, (Ok tt, c, [p]).

Definition lift {A : Type} (r : outcome A) : M A :=
  match r with
  | Ok a => ret a
  | Raise e => raise e
  end.

(** [for x in l: body(x)] *)
Fixpoint for_each {A : Type} (l : list A) (body : A → M unit) : M unit :=
  match l with
  | [] => ret tt
  | x :: l' => body x ;; for_each l' body
  end.

Definition set_workers (w : list (string * WorkerInfo)) (c : Coordinator) : Coordinator :=
  {| workers := w; results := results c; port := port c; file_chunks := file_chunks c |}.

Definition set_results (r : gmap string pyval) (c : Coordinator) : Coordinator :=
  {| workers := workers c; results := r; port := port c; file_chunks := file_chunks c |}.

Definition set_file_chunks (ch : list (Z * Z)) (c : Coordinator) : Coordinator :=
  {| workers := workers c; results := results c; port := port c; file_chunks := ch |}.

(** [Coordinator.__init__] *)
Definition init (p : Z) : Coordinator :=
  {| workers := []; results := ∅; port := p; file_chunks := [] |}.

(** [register_worker] *)
Definition register_worker (worker_id : string) : M Response :=
  c ← get_self;
  put_self (set_workers (ODict.set worker_id {| status := "healthy" |} (workers c)) c) ;;
  ret {| resp_status := 200; resp_text := "Worker registered" |}.

(** [receive_results]: [.append] exists on lists only. *)
Definition receive_results (worker_id : string) (result : jobject) : M Response :=
  c ← get_self;
  match results c !! worker_id with
  | Some (PList items) =>
      put_self (set_results (<[worker_id := PList (items ++ [result])]> (results c)) c)
  | Some _ => raise AttributeError
  | None =>
      put_self (set_results (<[worker_id := PList [result]]> (results c)) c)
  end ;;
  ret {| resp_status := 200; resp_text := "Results received" |}.

(** [update_worker_health] *)
Definition update_worker_health (worker_id : string) (new_status : string) : M Response :=
  c ← get_self;
  (if ODict.mem worker_id (workers c) then
     put_self (set_workers (ODict.set worker_id {| status := new_status |} (workers c)) c)
   else ret tt) ;;
  ret {| resp_status := 200; resp_text := "Health updated" |}.

(** [send_work]: whatever the POST answers, or if it fails, nothing else
    happens than a [print]. *)
Definition send_work (worker_id : string) (filepath : jval) (start size : Z) : M unit :=
  c ← get_self;
  if negb (ODict.mem worker_id (workers c))
     || negb (bool_decide (status <$> ODict.get worker_id (workers c) = Some "healthy"))
  then ret tt
  else emit {| post_for := worker_id; post_port := port c;
               json_filepath := filepath; json_start := start; json_size := size |}.

(** [chunk_size = 1024 * 1024  # 1 MB chunks] *)
Definition chunk_size : Z := 1024 * 1024.

(** [[(i, min(chunk_size, file_size - i)) for i in range(0, file_size, chunk_size)]] *)
Definition plan_chunks (file_size chunk_size : Z) : outcome (list (Z * Z)) :=
  match Py.range 0 file_size chunk_size with
  | Ok offsets => Ok ((λ i, (i, Z.min chunk_size (file_size - i))) <$> offsets)
  | Raise e => Raise e
  end.

Section Files.
(** [os.path.getsize]: [None] when it raises.  The exception is written
    [OSError], as for a missing file, whatever its class is ([ValueError]
    for a path with a NUL character, [OverflowError] for an integer out of
    range): the class is not modelled. *)
Variable getsize : jval → option Z.

(** [distribute_work] *)
Definition distribute_work (filepath : jval) : M unit :=
  file_size ← lift (match getsize filepath with
                    | Some n => Ok n
                    | None => Raise OSError
                    end);
  chunks ← lift (plan_chunks file_size chunk_size);
  c ← get_self;
  put_self (set_file_chunks chunks c) ;;
  c ← get_self;
  match workers c with
  | [] => ret tt
  | _ =>
      let worker_ids := ODict.keys (workers c) in
      for_each (Py.enumerate (file_chunks c))
        (λ '(index, (start, size)),
           match worker_ids !! (index mod length worker_ids)%nat with
           | Some worker_id => send_work worker_id filepath start size
           | None => raise IndexError
           end)
  end.

(** [handle_worker_failure]: iterating a number raises [TypeError],
    a result without ["filepath"] raises [KeyError]. *)
Definition handle_worker_failure (worker_id : string) : M unit :=
  c ← get_self;
  let failed_worker_results := default (PList []) (results c !! worker_id) in
  put_self (set_results (delete worker_id (results c)) c) ;;
  match failed_worker_results with
  | PList items =>
      for_each items
        (λ result,
           match result !! "filepath" with
           | Some filepath => distribute_work filepath
           | None => raise (KeyError "filepath")
           end)
  | _ => raise TypeError
  end.
End Files.

(** One entry of [worker_results] in [process_file]. *)
Record WorkerResult : Type := {
  wr_total_requests : Z;
  wr_malformed_lines : Z;
  wr_avg_response_time : Qc
}.

(** The dict [process_file] builds in [self.results]. *)
Record Summary : Type := {
  total_requests : Z;
  malformed_lines : Z;
  error_count : Z;
  avg_response_time : Qc
}.

Definition summary_dict (s : Summary) : gmap string pyval :=
  <["total_requests" := PInt (total_requests s)]>
  (<["malformed_lines" := PInt (malformed_lines s)]>
  (<["error_count" := PInt (error_count s)]>
  (<["avg_response_time" := PFloat (avg_response_time s)]> ∅))).

(** The body of [for res in worker_results]. *)
Definition accumulate (acc : Summary) (res : WorkerResult) : Summary :=
  {| total_requests := total_requests acc + wr_total_requests res;
     malformed_lines := malformed_lines acc + wr_malformed_lines res;
     error_count := error_count acc;
     avg_response_time := avg_response_time acc |}.

Definition initial_summary : Summary :=
  {| total_requests := 0; malformed_lines := 0; error_count := 0;
     avg_response_time := Qc_of_Z 109 |}.

Definition worker_results : list WorkerResult :=
  [ {| wr_total_requests := 1000; wr_malformed_lines := 10; wr_avg_response_time := Qc_of_Z 109 |};
    {| wr_total_requests := 2000; wr_malformed_lines := 20; wr_avg_response_time := Qc_of_Z 109 |} ].

(** The loop [for res in worker_results], run over [rs] from the dict
    [self.results] is initialised with. *)
Definition aggregate (rs : list WorkerResult) : Summary :=
  fold_left accumulate rs initial_summary.

(** [process_file]: [self.results] is replaced by the initial dict and
    updated by the loop, with no [await] in between; the returned dict is
    [self.results] itself. *)
Definition process_file (filepath : string) : M (gmap string pyval) :=
  c ← get_self;
  put_self (set_results (summary_dict (aggregate worker_results)) c) ;;
  c ← get_self;
  ret (results c).

(** The requests [start] routes: [/register], [/submit] and [/health]. *)
Inductive Request : Type :=
| Register (worker_id : string)
| Submit (worker_id : string) (result : jobject)
| Health (worker_id : string) (new_status : string).

Definition route (r : Request) : M Response :=
  match r with
  | Register worker_id => register_worker worker_id
  | Submit worker_id result => receive_results worker_id result
  | Health worker_id new_status => update_worker_health worker_id new_status
  end.

(** The coordinator after serving [reqs] in order; a handler that raises
    leaves the coordinator as it was when the exception was raised. *)
Fixpoint serve (reqs : list Request) (c : Coordinator) : Coordinator :=
  match reqs with
  | [] => c
  | r :: reqs' => serve reqs' (route r c).1.2
  end.

(** ** worker.py *)

Module Worker.

(** [{"lines": ..., "errors": ..., "warnings": ...}] *)
Record metrics : Type := { lines : Z; errors : Z; warnings : Z }.

Definition set_lines (n : Z) (m : metrics) : metrics :=
  {| lines := n; errors := errors m; warnings := warnings m |}.

Definition set_errors (n : Z) (m : metrics) : metrics :=
  {| lines := lines m; errors := n; warnings := warnings m |}.

Definition set_warnings (n : Z) (m : metrics) : metrics :=
  {| lines := lines m; errors := errors m; warnings := n |}.

(** [sum(1 for line in lines if word in line)] *)
Definition count_containing (word : string) (ls : list string) : Z :=
  foldr (λ line acc, if Py.contains word line then 1 + acc else acc) 0 ls.

(** The metrics as the ["result"] field [process_request] posts to
    [/submit]. *)
Definition metrics_json (m : metrics) : jobject :=
  <["lines" := JInt (lines m)]>
  (<["errors" := JInt (errors m)]>
  (<["warnings" := JInt (warnings m)]> ∅)).

(** The attributes [Worker.__init__] sets. *)
Record Worker : Type := {
  worker_id : string;
  coordinator_url : string;
  port : Z
}.

Section FileSystem.
(** An open text file and the calls made on it; each may raise. *)
Variable file : Type.
Variable open_r : string → outcome file.          (* open(filepath, "r") *)
Variable seek : file → Z → outcome file.          (* file.seek(start) *)
Variable read : file → Z → outcome (string * file). (* file.read(size) *)
Variable close : file → outcome unit.             (* leaving the with block *)

(** Leaving [with open(...) as file] closes the file; an exception of
    [close] replaces the outcome of the block. *)
Definition leave_with (f : file) (r : outcome unit) : outcome unit :=
  match close f with
  | Ok _ => r
  | Raise e => Raise e
  end.

(** The [try] block, started with the dict [metrics0]: its outcome
    and the dict as the block leaves it. *)
Definition try_block (filepath : string) (start size : Z) (metrics0 : metrics)
  : outcome unit * metrics :=
  match open_r filepath with
  | Raise e => (Raise e, metrics0)
  | Ok f =>
      match seek f start with
      | Raise e => (leave_with f (Raise e), metrics0)
      | Ok f1 =>
          match read f1 size with
          | Raise e => (leave_with f1 (Raise e), metrics0)
          | Ok (data, f2) =>
              let ls := Py.splitlines data in
              let m1 := set_lines (Z.of_nat (length ls)) metrics0 in
              let m2 := set_errors (count_containing "ERROR" ls) m1 in
              let m3 := set_warnings (count_containing "WARNING" ls) m2 in
              (leave_with f2 (Ok tt), m3)
          end
      end
  end.

(** [process_chunk]: [except Exception] only prints. *)
Definition process_chunk (filepath : string) (start size : Z) : outcome metrics :=
  let metrics0 := {| lines := 0; errors := 0; warnings := 0 |} in
  match try_block filepath start size metrics0 with
  | (Ok _, m) => Ok m
  | (Raise _, m) => Ok m
  end.

(** Opening, seeking or reading raises. *)
Definition unreadable (filepath : string) (start size : Z) : Prop :=
  match open_r filepath with
  | Raise _ => True
  | Ok f =>
      match seek f start with
      | Raise _ => True
      | Ok f1 =>
          match read f1 size with
          | Raise _ => True
          | Ok _ => False
          end
      end
  end.

(** [process_request]: the answer, and the request posted to
    [f"{self.coordinator_url}/submit"], given by the coordinator's address
    and the route's request.  What the POST answers, or whether it fails,
    only decides what is printed. *)
Definition process_request (self : Worker) (filepath : string) (start size : Z)
  : outcome (Response * list (string * Request)) :=
  match process_chunk filepath start size with
  | Ok result =>
      Ok ({| resp_status := 200; resp_text := "Chunk processed" |},
          [(coordinator_url self, Submit (worker_id self) (metrics_json result))])
  | Raise e => Raise e
  end.
End FileSystem.

(** What one iteration of the loop of [report_health] posts to
    [f"{self.coordinator_url}/health"]. *)
Definition heartbeat (self : Worker) : string * Request :=
  (coordinator_url self, Health (worker_id self) "healthy").

(** The requests of the first [n] iterations of [report_health]. *)
Definition report_health (self : Worker) (n : nat) : list (string * Request) :=
  replicate n (heartbeat self).

End Worker.

(** ** Notions used in the statements *)

(** The status test of [send_work] on the registry of [c]. *)
Definition healthy (c : Coordinator) (worker_id : string) : bool :=
  bool_decide (status <$> ODict.get worker_id (workers c) = Some "healthy").

(** The request [send_work] issues for a chunk. *)
Definition post_of (c : Coordinator) (worker_id : string) (filepath : jval)
    (chunk : Z * Z) : Post :=
  {| post_for := worker_id; post_port := port c; json_filepath := filepath;
     json_start := chunk.1; json_size := chunk.2 |}.

(** What the chunk at index [i] contributes to a round: a request for the
    registered worker at position [i mod n] when that one is healthy. *)
Definition slot_posts (c : Coordinator) (filepath : jval) (i : nat) (chunk : Z * Z)
    : list Post :=
  match ODict.keys (workers c) !! (i mod length (workers c))%nat with
  | Some worker_id =>
      if healthy c worker_id then [post_of c worker_id filepath chunk] else []
  | None => []
  end.

(** The requests of one round over [chunks], in chunk order. *)
Definition round_posts (c : Coordinator) (filepath : jval) (chunks : list (Z * Z))
    : list Post :=
  mjoin (imap (slot_posts c filepath) chunks).

(** A worker submitting the results [rs] one after the other. *)
Definition submit_all (worker_id : string) (rs : list jobject) : M unit :=
  for_each rs (λ r, receive_results worker_id r ;; mret tt).

(** The answers of [/submit] and [/health]. *)
Definition received_response : Response :=
  {| resp_status := 200; resp_text := "Results received" |}.
Definition health_response : Response :=
  {| resp_status := 200; resp_text := "Health updated" |}.

(** The dict [process_file] returns. *)
Definition fixed_aggregate : gmap string pyval :=
  <["total_requests" := PInt 3000]>
  (<["malformed_lines" := PInt 30]>
  (<["error_count" := PInt 0]>
  (<["avg_response_time" := PFloat (Qc_of_Z 109)]> ∅))).

(** [chunks] tiles [[0, file_size)] with pieces of at most [size] bytes:
    nothing for an empty file; the first chunk starts at 0; each chunk ends
    where the next one starts; no chunk is empty or longer than [size]; the
    last one ends at [file_size] and holds [file_size mod size] bytes when
    that is nonzero, [size] bytes otherwise; every byte of the file lies in
    exactly one chunk. *)
Definition tiles (file_size size : Z) (chunks : list (Z * Z)) : Prop :=
  (file_size = 0 → chunks = [])
  ∧ (∀ o l, head chunks = Some (o, l) → o = 0)
  ∧ (∀ (i : nat) o l o' l',
       chunks !! i = Some (o, l) → chunks !! S i = Some (o', l') → o + l = o')
  ∧ (∀ (i : nat) o l, chunks !! i = Some (o, l) → 0 <= o ∧ 0 < l <= size)
  ∧ (∀ o l, last chunks = Some (o, l) →
       o + l = file_size
       ∧ l = if decide (file_size mod size = 0) then size else file_size mod size)
  ∧ (∀ b, 0 <= b < file_size →
       ∃ (i : nat) o l,
         chunks !! i = Some (o, l) ∧ o <= b < o + l
         ∧ ∀ (j : nat) o' l',
             chunks !! j = Some (o', l') → o' <= b < o' + l' → j = i).

(** The state and the requests a computation ends with. *)
Definition state_after {A : Type} (m : M A) (c : Coordinator) : Coordinator := (m c).1.2.
Definition posts_of {A : Type} (m : M A) (c : Coordinator) : list Post := (m c).2.
Definition outcome_of {A : Type} (m : M A) (c : Coordinator) : outcome A := (m c).1.1.

(** The results kept for [worker_id]: none yet when it has no entry,
    undefined when the entry is a number. *)
Definition stored (c : Coordinator) (worker_id : string) : option (list jobject) :=
  match results c !! worker_id with
  | None => Some []
  | Some (PList items) => Some items
  | Some _ => None
  end.

(** Every entry of [self.results] is a list of results. *)
Definition lists_only (c : Coordinator) : Prop :=
  ∀ k v, results c !! k = Some v → ∃ items, v = PList items.

(** ** Scenarios *)

Definition sample_metrics : Worker.metrics :=
  {| Worker.lines := 3; Worker.errors := 1; Worker.warnings := 0 |}.

(** A coordinator on which [process_file] has run. *)
Definition after_job : Coordinator :=
  state_after (process_file "test_vectors/logs/normal.log") (init 8000).

(** Two registered workers, the first one reported unhealthy. *)
Definition first_down : Coordinator :=
  state_after (register_worker "w0" ;; register_worker "w1" ;;
               update_worker_health "w0" "unhealthy") (init 8000).

(** A file system with one file of two full chunks. *)
Definition two_chunk_fs (filepath : jval) : option Z :=
  match filepath with
  | JStr "app.log" => Some (2 * chunk_size)
  | _ => None
  end.

(** A file system with one file of 3,000,000 bytes. *)
Definition three_chunk_fs (filepath : jval) : option Z :=
  match filepath with
  | JStr "app.log" => Some 3000000
  | _ => None
  end.

(** A file system with one file of a single byte. *)
Definition one_byte_fs (filepath : jval) : option Z :=
  match filepath with
  | JStr "app.log" => Some 1
  | _ => None
  end.

(** The registry holds [a] (reported unhealthy) and [b]; [a] has submitted
    the results [rs]. *)
Definition failed_worker (a b : string) (rs : list jobject) : Coordinator :=
  state_after (register_worker a ;; register_worker b ;;
               submit_all a rs ;;
               update_worker_health a "unhealthy") (init 8000).

(** A result object naming the file it was computed from. *)
Definition result_for (filepath : string) : jobject :=
  <["filepath" := JStr filepath]> ∅.

(** Three workers registered one after the other on a fresh coordinator. *)
Definition three_registered (p : Z) (w0 w1 w2 : string) : Coordinator :=
  state_after (register_worker w0 ;; register_worker w1 ;; register_worker w2) (init p).

(** One healthy worker [w2], and [k] results stored for [w1], each naming
    the one-byte file. *)
Definition backlog (k : nat) : Coordinator :=
  {| workers := [("w2", {| status := "healthy" |})];
     results := <["w1" := PList (replicate k (result_for "app.log"))]> ∅;
     port := 8000;
     file_chunks := [] |}.

(** How many of [posts] are for the chunk starting at [start]. *)
Definition attempts (start : Z) (posts : list Post) : nat :=
  length (filter (λ p, json_start p = start) posts).

(** A file system on which nothing can be opened. *)
Definition no_files (filepath : string) : outcome unit := Raise OSError.

(** A file system with one ASCII text file, ["app.log"]: an open file is
    its content and the position of the next read. *)
Module MemFS.
Definition content : string :=
  "INFO start" ++ String "010" ("ERROR disk full" ++ String "010"
    ("WARNING slow" ++ String "010" ("ERROR again" ++ String "010" ""))).

Definition file : Type := string * Z.

Definition open_r (filepath : string) : outcome file :=
  if decide (filepath = "app.log") then Ok (content, 0) else Raise OSError.

Definition seek (f : file) (start : Z) : outcome file :=
  if start <? 0 then Raise ValueError else Ok (f.1, start).

Definition read (f : file) (size : Z) : outcome (string * file) :=
  let rest := String.substring (Z.to_nat f.2) (String.length f.1 - Z.to_nat f.2) f.1 in
  let data := if size <? 0 then rest else String.substring 0 (Z.to_nat size) rest in
  Ok (data, (f.1, f.2 + Z.of_nat (String.length data))).

Definition close (f : file) : outcome unit := Ok tt.

Definition process_chunk : string → Z → Z → outcome Worker.metrics :=
  Worker.process_chunk file open_r seek read close.
End MemFS.

(** ** Notions used in the further properties *)

(** The results [worker_id] submits in [reqs], in order. *)
Definition submitted_by (worker_id : string) (reqs : list Request) : list jobject :=
  omap (λ r, match r with
             | Submit w result => if decide (w = worker_id) then Some result else None
             | _ => None
             end) reqs.

(** Every registered worker passes the status test of [send_work]. *)
Definition all_healthy (c : Coordinator) : Prop :=
  ∀ w, w ∈ ODict.keys (workers c) → healthy c w = true.

(** The byte range a request asks for. *)
Definition chunk_of (p : Post) : Z * Z := (json_start p, json_size p).

(** The requests [worker.py] sends: submissions of metrics and reports of
    the status "healthy". *)
Definition from_worker (r : Request) : Prop :=
  match r with
  | Register _ => False
  | Submit _ result => ∃ m, result = Worker.metrics_json m
  | Health _ new_status => new_status = "healthy"
  end.

(** The keys of the dict [process_file] leaves in [self.results]. *)
Definition aggregate_keys : list string :=
  ["total_requests"; "malformed_lines"; "error_count"; "avg_response_time"].

(** [text ls] is the lines [ls], each ended by a line feed. *)
Definition text (ls : list string) : string :=
  foldr (λ line rest, String.append line (String "010" rest)) "" ls.

(** No character of [line] is a line boundary. *)
Definition one_line (line : string) : Prop :=
  Forall (λ a, Py.is_linebreak a = false) (list_ascii_of_string line).

(** A worker on port 8001, as [worker.py] starts by default. *)
Definition worker1 : Worker.Worker :=
  {| Worker.worker_id := "worker1";
     Worker.coordinator_url := "http://localhost:8000";
     Worker.port := 8001 |}.

(** What [str.splitlines] goes on with after the line boundary [a]: a line
    feed right after a carriage return belongs to the same boundary. *)
Definition after_break (a : ascii) (rest : string) : string :=
  match a, rest with
  | "013"%char, String "010"%char rest' => rest'
  | _, _ => rest
  end.

(** How many of [posts] are for the worker [w]. *)
Definition load (w : string) (posts : list Post) : nat :=
  length (filter (λ p, post_for p = w) posts).

(** [round] is the round of [distribute_work] for the file that [result]
    names: the plan of that file, posted slot by slot; when the registry is
    not empty and every registered worker is healthy, it holds every chunk
    of the plan once, in order. *)
Definition round_of (getsize : jval → option Z) (c : Coordinator)
    (result : jobject) (round : list Post) : Prop :=
  ∃ (filepath : jval) (n : Z) (chunks : list (Z * Z)),
    result !! "filepath" = Some filepath
    ∧ getsize filepath = Some n
    ∧ plan_chunks n chunk_size = Ok chunks
    ∧ round = round_posts c filepath chunks
    ∧ (all_healthy c → workers c ≠ [] → chunk_of <$> round = chunks).

(** Every character of [line] is ASCII and none is a line boundary. *)
Definition plain_line (line : string) : Prop :=
  Forall (λ a, (nat_of_ascii a < 128)%nat ∧ Py.is_linebreak a = false)
    (list_ascii_of_string line).

(** * Properties *)

(** ** Running computations *)

Section MonadFacts.
Context {A B : Type}.

Lemma bind_ok (m : M A) (f : A → M B) (c c1 : Coordinator) (a : A) (t1 : list Post) :
  m c = (Ok a, c1, t1) →
  (m ≫= f) c = ((f a c1).1.1, (f a c1).1.2, t1 ++ (f a c1).2).
Proof.
  intros Hm. unfold mbind, M_bind, bind. rewrite Hm.
  by destruct (f a c1) as [[r c2] t2].
Qed.

Lemma bind_raise (m : M A) (f : A → M B) (c c1 : Coordinator) (e : exn) (t1 : list Post) :
  m c = (Raise e, c1, t1) → (m ≫= f) c = (Raise e, c1, t1).
Proof. intros Hm. unfold mbind, M_bind, bind. by rewrite Hm. Qed.

Lemma bind_ok_ok (m : M A) (f : A → M B) (c c1 c2 : Coordinator) (a : A) (r : outcome B)
    (t1 t2 : list Post) :
  m c = (Ok a, c1, t1) → f a c1 = (r, c2, t2) → (m ≫= f) c = (r, c2, t1 ++ t2).
Proof. intros Hm Hf. rewrite (bind_ok _ _ _ _ _ _ Hm), Hf. done. Qed.
End MonadFacts.

Lemma for_each_cons {A : Type} (x : A) (l : list A) (body : A → M unit) :
  for_each (x :: l) body = (body x ;; for_each l body).
Proof. reflexivity. Qed.

(** ** The chunk plan *)

Section PlannerFacts.

Lemma range_len_pos (hi step : Z) :
  0 < hi → 0 < step →
  (Z.of_nat (Py.range_len 0 hi step) - 1) * step < hi
  ∧ hi <= Z.of_nat (Py.range_len 0 hi step) * step
  ∧ 1 <= Z.of_nat (Py.range_len 0 hi step).
Proof.
  intros Hhi Hstep. unfold Py.range_len.
  destruct (Z.ltb_spec 0 hi) as [_|]; [|lia].
  rewrite Z.sub_0_r.
  assert (0 <= (hi - 1) / step) by (apply Z.div_pos; lia).
  rewrite Z2Nat.id by lia.
  pose proof (Z.mul_div_le (hi - 1) step Hstep).
  pose proof (Z.mul_succ_div_gt (hi - 1) step Hstep).
  nia.
Qed.

Lemma range_len_nonpos (hi step : Z) : hi <= 0 → Py.range_len 0 hi step = 0%nat.
Proof.
  intros Hhi. unfold Py.range_len. destruct (Z.ltb_spec 0 hi); [lia|done].
Qed.

(** The plan written index by index. *)
Lemma plan_chunks_lookup (file_size size : Z) :
  0 < size →
  ∃ chunks : list (Z * Z),
    plan_chunks file_size size = Ok chunks
    ∧ length chunks = Py.range_len 0 file_size size
    ∧ ∀ i : nat, (i < Py.range_len 0 file_size size)%nat →
        chunks !! i
        = Some (Z.of_nat i * size, Z.min size (file_size - Z.of_nat i * size)).
Proof.
  intros Hc. unfold plan_chunks, Py.range.
  destruct (Z.eqb_spec size 0) as [|_]; [lia|].
  destruct (Z.ltb_spec 0 size) as [_|]; [|lia].
  eexists; split; [reflexivity|]. split.
  - by rewrite !length_fmap, length_seq.
  - intros i Hi. rewrite !list_lookup_fmap, lookup_seq_lt by done.
    reflexivity.
Qed.

(** The plan never raises for the chunk size [distribute_work] uses. *)
Lemma plan_chunks_total (file_size : Z) :
  ∃ chunks, plan_chunks file_size chunk_size = Ok chunks.
Proof.
  destruct (plan_chunks_lookup file_size chunk_size) as (chunks & H & _);
    [reflexivity | by exists chunks].
Qed.

End PlannerFacts.

(** C1. For [file_size >= 0] and [chunk_size > 0] the list comprehension of
    [distribute_work] returns a plan, and the plan is contiguous, without
    overlap, and tiles [[0, file_size)] exactly: each chunk's offset plus
    length is the next chunk's offset, the last chunk holds
    [file_size mod chunk_size] bytes when that is nonzero and [chunk_size]
    otherwise, and an empty file gives the empty plan. *)
Theorem chunk_plan_tiles_file (file_size size : Z) :
  0 <= file_size → 0 < size →
  ∃ chunks : list (Z * Z),
    plan_chunks file_size size = Ok chunks ∧ tiles file_size size chunks.
Proof.
  intros Hfs Hsz.
  destruct (plan_chunks_lookup file_size size Hsz) as (chunks & Hplan & Hlen & Hget).
  exists chunks. split; [done|]. unfold tiles.
  set (n := Py.range_len 0 file_size size) in *.
  assert (Hn : file_size = 0 ∧ n = 0%nat
               ∨ 0 < file_size ∧ (Z.of_nat n - 1) * size < file_size
                 ∧ file_size <= Z.of_nat n * size ∧ 1 <= Z.of_nat n).
  { destruct (decide (file_size = 0)) as [->|].
    - left. split; [done|]. by apply range_len_nonpos.
    - right. split; [lia|]. apply range_len_pos; lia. }
  assert (Hat : ∀ (i : nat) o l, chunks !! i = Some (o, l) →
                  (i < n)%nat ∧ o = Z.of_nat i * size
                  ∧ l = Z.min size (file_size - Z.of_nat i * size)).
  { intros i o l Hi. pose proof (lookup_lt_Some _ _ _ Hi) as Hlt.
    rewrite Hlen in Hlt. rewrite (Hget i Hlt) in Hi. by simplify_eq. }
  split_and!.
  - intros ->. destruct Hn as [[_ Hn]|]; [|lia].
    apply length_zero_iff_nil. by rewrite Hlen.
  - intros o l Hhd. rewrite head_lookup in Hhd.
    apply Hat in Hhd. lia.
  - intros i o l o' l' Hi HSi.
    apply Hat in Hi as (_ & -> & ->). apply Hat in HSi as (HSi & -> & _).
    destruct Hn as [[_ ?]|Hn]; [lia|]. nia.
  - intros i o l Hi. apply Hat in Hi as (Hi & -> & ->).
    destruct Hn as [[_ ?]|Hn]; [lia|]. nia.
  - intros o l Hlast. rewrite last_lookup, Hlen in Hlast.
    destruct Hn as [[_ ?]|Hn]; [apply Hat in Hlast; lia|].
    apply Hat in Hlast as (_ & -> & ->).
    replace (Z.of_nat (Nat.pred n)) with (Z.of_nat n - 1) by lia.
    pose proof (Z.div_mod file_size size ltac:(lia)) as Hdm.
    pose proof (Z.mod_pos_bound file_size size Hsz) as Hmod.
    case_decide as Hz.
    + assert (file_size / size = Z.of_nat n) by nia. nia.
    + assert (file_size / size = Z.of_nat n - 1) by nia. nia.
  - intros b Hb. destruct Hn as [[? _]|Hn]; [lia|].
    pose proof (Z.div_mod b size ltac:(lia)) as Hdm.
    pose proof (Z.mod_pos_bound b size Hsz) as Hmod.
    assert (Hq : 0 <= b / size < Z.of_nat n) by (split; [apply Z.div_pos; lia | nia]).
    exists (Z.to_nat (b / size)).
    assert (Hlt : (Z.to_nat (b / size) < n)%nat) by lia.
    eexists _, _. split; [exact (Hget _ Hlt)|].
    rewrite Z2Nat.id by lia. split; [nia|].
    intros j o' l' Hj Hin. apply Hat in Hj as (Hj & -> & ->).
    assert (Z.of_nat j = b / size) by nia. lia.
Qed.

Lemma chunk_plan_tiles_file_witness :
  ∃ chunks : list (Z * Z),
    plan_chunks 3000000 chunk_size = Ok chunks ∧ tiles 3000000 chunk_size chunks.
Proof. apply chunk_plan_tiles_file; [lia | reflexivity]. Defined.

(** ** The registry *)

Section RegistryFacts.
Context {V : Type}.
Implicit Types (d : list (string * V)) (k : string) (v : V).

Lemma get_set_eq d k v : ODict.get k (ODict.set k v d) = Some v.
Proof.
  induction d as [|[k' v'] d IH]; simpl.
  - by rewrite decide_True.
  - destruct (decide (k = k')) as [->|Hne]; simpl.
    + by rewrite decide_True.
    + by rewrite decide_False.
Qed.

Lemma get_set_ne d k k' v : k' ≠ k → ODict.get k' (ODict.set k v d) = ODict.get k' d.
Proof.
  intros Hne. induction d as [|[k0 v0] d IH]; simpl.
  - by rewrite decide_False.
  - destruct (decide (k = k0)) as [->|Hk]; simpl.
    + by rewrite !decide_False.
    + by rewrite IH.
Qed.

(** Assigning to a present key leaves the key order alone. *)
Lemma keys_set_present d k v :
  is_Some (ODict.get k d) → ODict.keys (ODict.set k v d) = ODict.keys d.
Proof.
  unfold ODict.keys. induction d as [|[k0 v0] d IH]; simpl.
  - by intros [? ?].
  - destruct (decide (k = k0)) as [->|Hk]; [done|].
    intros Hd. rewrite fmap_cons. f_equal. by apply IH.
Qed.

(** A new key goes last. *)
Lemma keys_set_absent d k v :
  ODict.get k d = None → ODict.keys (ODict.set k v d) = ODict.keys d ++ [k].
Proof.
  unfold ODict.keys. induction d as [|[k0 v0] d IH]; simpl; [done|].
  destruct (decide (k = k0)) as [->|Hk]; [done|].
  intros Hd. rewrite fmap_cons. simpl. f_equal. by apply IH.
Qed.

Lemma mem_true d k : ODict.mem k d = true ↔ is_Some (ODict.get k d).
Proof. unfold ODict.mem. apply bool_decide_eq_true. Qed.

Lemma mem_false d k : ODict.mem k d = false ↔ ODict.get k d = None.
Proof.
  unfold ODict.mem. rewrite bool_decide_eq_false, eq_None_not_Some. done.
Qed.
End RegistryFacts.

(** The two paths of [update_worker_health]. *)
Lemma update_worker_health_run (c : Coordinator) (worker_id new_status : string) :
  (update_worker_health worker_id new_status c).1.2 = c
  ∨ (update_worker_health worker_id new_status c).1.2
    = set_workers (ODict.set worker_id {| status := new_status |} (workers c)) c.
Proof.
  unfold update_worker_health, mbind, M_bind, bind, get_self, put_self; simpl.
  destruct (ODict.mem worker_id (workers c)); simpl; [by right | by left].
Qed.

(** C7, as the code has it. A health report is always answered with
    status 200 and the text "Health updated", and issues no request.  For a
    [worker_id] that is not registered the coordinator is left as it was;
    for a registered one the status becomes the reported value, and the
    order of the registry, the other workers and the stored results stay
    as they were. *)
Theorem update_worker_health_acknowledges (c : Coordinator) (worker_id new_status : string) :
  ∃ c' : Coordinator,
    update_worker_health worker_id new_status c = (Ok health_response, c', [])
    ∧ results c' = results c
    ∧ ODict.keys (workers c') = ODict.keys (workers c)
    ∧ (∀ w, w ≠ worker_id → ODict.get w (workers c') = ODict.get w (workers c))
    ∧ match ODict.get worker_id (workers c) with
      | None => c' = c
      | Some _ => ODict.get worker_id (workers c') = Some {| status := new_status |}
      end.
Proof.
  unfold update_worker_health, mbind, M_bind, bind, get_self, put_self; simpl.
  destruct (ODict.mem worker_id (workers c)) eqn:Hmem; simpl.
  - apply mem_true in Hmem. eexists. split; [reflexivity|]. simpl.
    split_and!; [done | by apply keys_set_present | | ].
    + intros w Hw. by apply get_set_ne.
    + destruct Hmem as [w ->]. apply get_set_eq.
  - apply mem_false in Hmem. exists c. rewrite Hmem. done.
Qed.

(** C7 as stated fails: a report for a worker that was never registered is
    acknowledged with status 200, not rejected. *)
Lemma unknown_worker_health_is_acknowledged :
  ODict.get "ghost" (workers (init 8000)) = (None : option WorkerInfo)
  ∧ outcome_of (update_worker_health "ghost" "healthy") (init 8000)
    = Ok {| resp_status := 200; resp_text := "Health updated" |}.
Proof. split; reflexivity. Qed.

(** ** Submissions *)

Section SubmissionFacts.

(** One submission on a coordinator whose entry for the worker is
    absent or a list. *)
Lemma receive_results_run (c : Coordinator) (worker_id : string)
    (items : list jobject) (result : jobject) :
  stored c worker_id = Some items →
  receive_results worker_id result c
  = (Ok received_response,
     set_results (<[worker_id := PList (items ++ [result])]> (results c)) c, []).
Proof.
  unfold stored, receive_results, mbind, M_bind, bind, get_self, put_self.
  simpl. destruct (results c !! worker_id) as [[n|q|items']|]; try done.
  - intros [= ->]. done.
  - intros [= <-]. done.
Qed.

Lemma stored_after_insert (c : Coordinator) (worker_id : string) (items : list jobject) :
  stored (set_results (<[worker_id := PList items]> (results c)) c) worker_id
  = Some items.
Proof. unfold stored. simpl. by rewrite lookup_insert_eq. Qed.

Lemma lists_only_stored (c : Coordinator) (worker_id : string) :
  lists_only c → ∃ items, stored c worker_id = Some items.
Proof.
  intros Hc. unfold stored.
  destruct (results c !! worker_id) as [v|] eqn:Hv; [|by eexists].
  destruct (Hc _ _ Hv) as [items ->]. by eexists.
Qed.

Lemma lists_only_insert (c : Coordinator) (worker_id : string) (items : list jobject) :
  lists_only c →
  lists_only (set_results (<[worker_id := PList items]> (results c)) c).
Proof.
  intros Hc k v. simpl. destruct (decide (worker_id = k)) as [->|Hne].
  - rewrite lookup_insert_eq. intros [= <-]. by eexists.
  - rewrite lookup_insert_ne by done. apply Hc.
Qed.

(** None of the three routes puts anything but a list into
    [self.results]. *)
Lemma lists_only_route (r : Request) (c : Coordinator) :
  lists_only c → lists_only (route r c).1.2.
Proof.
  intros Hc. destruct r as [w|w res|w st].
  - exact Hc.
  - destruct (lists_only_stored c w Hc) as [items Hst].
    simpl. rewrite (receive_results_run c w items res Hst). simpl.
    by apply lists_only_insert.
  - change (route (Health w st) c) with (update_worker_health w st c).
    destruct (update_worker_health_run c w st) as [-> | ->]; exact Hc.
Qed.

(** Whatever was served since [__init__], every worker's entry is absent
    or a list. *)
Lemma served_results_are_lists (reqs : list Request) (p : Z) (worker_id : string) :
  ∃ items, stored (serve reqs (init p)) worker_id = Some items.
Proof.
  apply lists_only_stored.
  assert (Hinit : lists_only (init p)) by (intros k v Hk; simpl in Hk; by rewrite lookup_empty in Hk).
  revert Hinit. generalize (init p).
  induction reqs as [|r reqs IH]; intros c Hc; [done|].
  simpl. apply IH. by apply lists_only_route.
Qed.

End SubmissionFacts.

(** X26. For every [worker_id], registered or not, whose entry in
    [self.results] is absent or a list, a submission is answered with
    status 200 and the text "Results received"; the result is appended to
    that worker's list, the other entries and the registry are left as they
    were, and no request is issued. *)
Theorem receive_results_accepts_any_worker (c : Coordinator) (worker_id : string)
    (items : list jobject) (result : jobject) :
  stored c worker_id = Some items →
  ∃ c' : Coordinator,
    receive_results worker_id result c = (Ok received_response, c', [])
    ∧ results c' !! worker_id = Some (PList (items ++ [result]))
    ∧ (∀ w, w ≠ worker_id → results c' !! w = results c !! w)
    ∧ workers c' = workers c.
Proof.
  intros Hst. eexists. split; [by apply receive_results_run|]. simpl.
  split_and!; [by rewrite lookup_insert_eq | | done].
  intros w Hw. by rewrite lookup_insert_ne.
Qed.

Lemma receive_results_accepts_any_worker_witness :
  ∃ c' : Coordinator,
    receive_results "ghost" (Worker.metrics_json sample_metrics) (init 8000)
    = (Ok received_response, c', [])
    ∧ results c' !! "ghost" = Some (PList ([] ++ [Worker.metrics_json sample_metrics]))
    ∧ (∀ w, w ≠ "ghost" → results c' !! w = results (init 8000) !! w)
    ∧ workers c' = workers (init 8000).
Proof. apply receive_results_accepts_any_worker. reflexivity. Defined.

(** C10, on the code. A submission is to be stored and acknowledged for
    every [worker_id].  Once [process_file] has put its numbers into
    [self.results], a submission whose [worker_id] is one of its keys finds
    the key present and appends to a number: [receive_results] raises
    [AttributeError], stores nothing and gives no answer. *)
Lemma submission_rejected_after_job :
  results after_job !! "total_requests" = Some (PInt 3000)
  ∧ receive_results "total_requests" (Worker.metrics_json sample_metrics) after_job
    = (Raise AttributeError, after_job, [])
  ∧ outcome_of (receive_results "total_requests" (Worker.metrics_json sample_metrics))
      (init 8000) = Ok received_response
  ∧ outcome_of (receive_results "worker1" (Worker.metrics_json sample_metrics))
      after_job = Ok received_response.
Proof. split_and!; reflexivity. Qed.

(** C3, as the code has it. Every submission is kept: from a coordinator
    holding [items] for the worker, submitting [rs] one after the other
    leaves [items ++ rs] for it, repeated results included, and touches
    neither the other entries nor the registry. *)
Theorem submit_all_keeps_every_result (rs : list jobject) (c : Coordinator)
    (worker_id : string) (items : list jobject) :
  stored c worker_id = Some items →
  ∃ c' : Coordinator,
    submit_all worker_id rs c = (Ok tt, c', [])
    ∧ stored c' worker_id = Some (items ++ rs)
    ∧ (∀ w, w ≠ worker_id → results c' !! w = results c !! w)
    ∧ workers c' = workers c.
Proof.
  revert c items. induction rs as [|r rs IH]; intros c items Hst.
  - exists c. rewrite app_nil_r. done.
  - destruct (IH _ (items ++ [r]) (stored_after_insert c worker_id (items ++ [r])))
      as (c' & Hrun & Hst' & Hother & Hw).
    exists c'. unfold submit_all in *. rewrite for_each_cons.
    split_and!; [ | by rewrite Hst', <- app_assoc | | done].
    + eapply (bind_ok_ok _ _ _ _ _ _ _ [] []); [|exact Hrun].
      eapply (bind_ok_ok _ _ _ _ _ _ _ [] []); [by apply receive_results_run | done].
    + intros w Hne. rewrite (Hother w Hne). simpl. by rewrite lookup_insert_ne.
Qed.

Lemma submit_all_keeps_every_result_witness :
  ∃ c' : Coordinator,
    submit_all "w1" [Worker.metrics_json sample_metrics; Worker.metrics_json sample_metrics]
      (init 8000) = (Ok tt, c', [])
    ∧ stored c' "w1"
      = Some ([] ++ [Worker.metrics_json sample_metrics; Worker.metrics_json sample_metrics])
    ∧ (∀ w, w ≠ "w1" → results c' !! w = results (init 8000) !! w)
    ∧ workers c' = workers (init 8000).
Proof. apply submit_all_keeps_every_result. reflexivity. Defined.

(** C3 as stated fails: the same result submitted a second time is stored
    a second time, so the second submission changes what the coordinator
    has accumulated. *)
Lemma duplicate_submission_is_stored_twice :
  let r := Worker.metrics_json sample_metrics in
  let c1 := state_after (receive_results "w1" r) (init 8000) in
  let c2 := state_after (receive_results "w1" r) c1 in
  results c1 !! "w1" = Some (PList [r])
  ∧ results c2 !! "w1" = Some (PList [r; r])
  ∧ results c2 ≠ results c1.
Proof.
  intros r c1 c2. split; [reflexivity|]. split; [reflexivity|].
  intros Heq. apply (f_equal (λ m, m !! "w1")) in Heq. discriminate Heq.
Qed.

(** ** The aggregate of [process_file] *)

Section FoldFacts.

(** Two results can be folded in either order. *)
Lemma accumulate_swap (acc : Summary) (r1 r2 : WorkerResult) :
  accumulate (accumulate acc r1) r2 = accumulate (accumulate acc r2) r1.
Proof. unfold accumulate. simpl. f_equal; lia. Qed.

Lemma fold_accumulate_perm (l l' : list WorkerResult) :
  l ≡ₚ l' → ∀ acc, fold_left accumulate l acc = fold_left accumulate l' acc.
Proof.
  induction 1 as [|r l l' _ IH|r1 r2 l|l1 l2 l3 _ IH12 _ IH23]; intros acc; simpl.
  - done.
  - apply IH.
  - by rewrite accumulate_swap.
  - by rewrite IH12.
Qed.

(** Folding a concatenation is folding the parts one after the other. *)
Lemma fold_accumulate_app (l1 l2 : list WorkerResult) (acc : Summary) :
  fold_left accumulate (l1 ++ l2) acc
  = fold_left accumulate l2 (fold_left accumulate l1 acc).
Proof. apply fold_left_app. Qed.

End FoldFacts.

(** C6. The loop of [process_file] gives the same aggregate for any two
    arrival orders of the same results: if [l'] is a permutation of [l],
    folding [l'] yields the dict that folding [l] yields.  The step is
    commutative (two results can be swapped) and a batch can be split
    anywhere (folding [l1 ++ l2] is folding [l1], then [l2]). *)
Theorem fold_order_independent (l l' : list WorkerResult) :
  l ≡ₚ l' →
  summary_dict (aggregate l) = summary_dict (aggregate l')
  ∧ (∀ acc r1 r2, accumulate (accumulate acc r1) r2 = accumulate (accumulate acc r2) r1)
  ∧ (∀ l1 l2, aggregate (l1 ++ l2) = fold_left accumulate l2 (aggregate l1)).
Proof.
  intros Hperm. split_and!.
  - unfold aggregate. by rewrite (fold_accumulate_perm _ _ Hperm).
  - apply accumulate_swap.
  - intros l1 l2. apply fold_accumulate_app.
Qed.

Lemma fold_order_independent_witness :
  summary_dict (aggregate worker_results) = summary_dict (aggregate (reverse worker_results))
  ∧ (∀ acc r1 r2, accumulate (accumulate acc r1) r2 = accumulate (accumulate acc r2) r1)
  ∧ (∀ l1 l2, aggregate (l1 ++ l2) = fold_left accumulate l2 (aggregate l1)).
Proof. apply fold_order_independent. apply Permutation_swap. Defined.

(** C9. For every filepath and every coordinator, [process_file] returns
    the dict [{total_requests: 3000, malformed_lines: 30, error_count: 0,
    avg_response_time: 109.0}], leaves it in [self.results], and issues no
    request; it takes nothing from the file system, the registry or the
    results received before. *)
Theorem process_file_is_constant (c : Coordinator) (filepath : string) :
  process_file filepath c = (Ok fixed_aggregate, set_results fixed_aggregate c, [])
  ∧ fixed_aggregate !! "total_requests" = Some (PInt 3000)
  ∧ fixed_aggregate !! "malformed_lines" = Some (PInt 30)
  ∧ fixed_aggregate !! "error_count" = Some (PInt 0)
  ∧ fixed_aggregate !! "avg_response_time" = Some (PFloat (Qc_of_Z 109))
  ∧ size fixed_aggregate = 4%nat.
Proof. split_and!; reflexivity. Qed.

(** ** Distribution *)

Section DistributionFacts.
Variable getsize : jval → option Z.

(** A healthy worker is a registered one. *)
Lemma healthy_mem (c : Coordinator) (worker_id : string) :
  healthy c worker_id = true → ODict.mem worker_id (workers c) = true.
Proof.
  unfold healthy. rewrite bool_decide_eq_true, mem_true.
  destruct (ODict.get worker_id (workers c)); [eauto | discriminate].
Qed.

(** [send_work] posts exactly when the worker is healthy, and never
    changes the coordinator. *)
Lemma send_work_run (c : Coordinator) (worker_id : string) (filepath : jval)
    (start size : Z) :
  send_work worker_id filepath start size c
  = (Ok tt, c,
     if healthy c worker_id then [post_of c worker_id filepath (start, size)] else []).
Proof.
  unfold send_work, mbind, M_bind, bind, get_self. simpl.
  destruct (healthy c worker_id) eqn:Hh.
  - rewrite (healthy_mem _ _ Hh). unfold healthy in Hh. rewrite Hh. done.
  - unfold healthy in Hh. rewrite Hh. simpl. rewrite orb_true_r. done.
Qed.

(** The loop of [distribute_work], started at index [k]. *)
Lemma dispatch_loop_run (c : Coordinator) (filepath : jval) (chunks : list (Z * Z)) :
  workers c ≠ [] →
  ∀ k : nat,
    for_each (zip (seq k (length chunks)) chunks)
      (λ '(index, (start, size)),
         match ODict.keys (workers c) !! (index mod length (ODict.keys (workers c)))%nat with
         | Some worker_id => send_work worker_id filepath start size
         | None => raise IndexError
         end) c
    = (Ok tt, c, mjoin (imap (λ i, slot_posts c filepath (k + i)%nat) chunks)).
Proof.
  intros Hne. unfold ODict.keys. rewrite length_fmap.
  assert (Hlen : (0 < length (workers c))%nat)
    by (destruct (workers c); [done | simpl; lia]).
  induction chunks as [|[start size] chunks IH]; intros k; [done|].
  cbn [length seq zip zip_with]. rewrite for_each_cons.
  destruct (lookup_lt_is_Some_2 (workers c).*1 (k mod length (workers c))%nat)
    as [w Hw].
  { rewrite length_fmap. by apply Nat.mod_upper_bound, Nat.neq_0_lt_0. }
  erewrite bind_ok_ok; [ | rewrite Hw; apply send_work_run | apply (IH (S k)) ].
  rewrite imap_cons. cbn [mjoin list_join]. f_equal.
  f_equal.
  - unfold slot_posts, ODict.keys. by rewrite Nat.add_0_r, Hw.
  - f_equal. apply imap_ext. intros i x _. simpl. f_equal. lia.
Qed.

(** With an empty registry no slot has a worker. *)
Lemma slot_posts_no_workers (c : Coordinator) (filepath : jval) (chunks : list (Z * Z)) :
  workers c = [] → ∀ k : nat, mjoin (imap (λ i, slot_posts c filepath (k + i)%nat) chunks) = [].
Proof.
  intros Hw. induction chunks as [|chunk chunks IH]; intros k; [done|].
  rewrite imap_cons. cbn [mjoin list_join].
  unfold slot_posts at 1. rewrite Hw. simpl.
  rewrite <- (IH (S k)). f_equal. apply imap_ext. intros i x _. simpl. f_equal. lia.
Qed.

(** A round only looks at the registry and the port. *)
Lemma round_posts_ext (c1 c2 : Coordinator) (filepath : jval) (chunks : list (Z * Z)) :
  workers c1 = workers c2 → port c1 = port c2 →
  round_posts c1 filepath chunks = round_posts c2 filepath chunks.
Proof.
  destruct c1, c2. simpl. intros -> ->. reflexivity.
Qed.

(** The dispatch part of [distribute_work], after the plan is stored. *)
Lemma dispatch_all_run (c : Coordinator) (filepath : jval) :
  match workers c with
  | [] => mret tt
  | _ =>
      for_each (Py.enumerate (file_chunks c))
        (λ '(index, (start, size)),
           match ODict.keys (workers c) !! (index mod length (ODict.keys (workers c)))%nat with
           | Some worker_id => send_work worker_id filepath start size
           | None => raise IndexError
           end)
  end c
  = (Ok tt, c, round_posts c filepath (file_chunks c)).
Proof.
  unfold round_posts. destruct (workers c) as [|w ws] eqn:Hw.
  - unfold mret, M_ret, ret. f_equal. symmetry.
    exact (slot_posts_no_workers c filepath (file_chunks c) Hw 0%nat).
  - rewrite <- Hw.
    assert (Hne : workers c ≠ []) by (by rewrite Hw).
    exact (dispatch_loop_run c filepath (file_chunks c) Hne 0%nat).
Qed.

(** [distribute_work] on a file whose size can be read. *)
Lemma distribute_work_run (c : Coordinator) (filepath : jval) (n : Z) :
  getsize filepath = Some n →
  ∃ chunks : list (Z * Z),
    plan_chunks n chunk_size = Ok chunks
    ∧ distribute_work getsize filepath c
      = (Ok tt, set_file_chunks chunks c, round_posts c filepath chunks).
Proof.
  intros Hsize. destruct (plan_chunks_total n) as [chunks Hplan].
  exists chunks. split; [done|].
  unfold distribute_work. rewrite Hsize.
  erewrite bind_ok_ok; [ | reflexivity | ].
  2:{ rewrite Hplan. erewrite bind_ok_ok; [ | reflexivity | ].
      2:{ erewrite bind_ok_ok; [ | reflexivity | ].
          2:{ erewrite bind_ok_ok; [ | reflexivity | ].
              2:{ erewrite bind_ok_ok; [ | reflexivity | ].
                  2:{ apply dispatch_all_run. }
                  reflexivity. }
              reflexivity. }
          reflexivity. }
      reflexivity. }
  reflexivity.
Qed.

(** A file whose size cannot be read stops [distribute_work] at once. *)
Lemma distribute_work_oserror (c : Coordinator) (filepath : jval) :
  getsize filepath = None →
  distribute_work getsize filepath c = (Raise OSError, c, []).
Proof. intros Hsize. unfold distribute_work. by rewrite Hsize. Qed.

End DistributionFacts.

Section RoundRobinScenario.
Variables (p : Z) (w0 w1 w2 : string).
Hypotheses (H01 : w0 ≠ w1) (H02 : w0 ≠ w2) (H12 : w1 ≠ w2).

Lemma three_registered_state :
  three_registered p w0 w1 w2
  = {| workers := [(w0, {| status := "healthy" |}); (w1, {| status := "healthy" |});
                   (w2, {| status := "healthy" |})];
       results := ∅; port := p; file_chunks := [] |}.
Proof.
  unfold three_registered, state_after, register_worker, init.
  unfold mbind, M_bind, bind, get_self, put_self, ret, set_workers. simpl.
  repeat (simpl; rewrite decide_False by congruence). reflexivity.
Qed.

Lemma three_registered_round (filepath : jval) :
  round_posts (three_registered p w0 w1 w2) filepath
    [(0, 1048576); (1048576, 1048576); (2097152, 902848)]
  = [ post_of (three_registered p w0 w1 w2) w0 filepath (0, 1048576);
      post_of (three_registered p w0 w1 w2) w1 filepath (1048576, 1048576);
      post_of (three_registered p w0 w1 w2) w2 filepath (2097152, 902848) ].
Proof.
  rewrite three_registered_state.
  unfold round_posts, slot_posts, healthy, post_of. simpl.
  repeat first [ rewrite decide_True by done | rewrite decide_False by congruence ].
  reflexivity.
Qed.
End RoundRobinScenario.

(** C4, as the code has it. [distribute_work] stores the plan of the file
    and goes through its chunks in order: chunk [i] is meant for the
    registered worker at position [i mod n] of the registry, healthy or
    not, and is posted only if that worker's status is "healthy"; otherwise
    the chunk is skipped.  In particular, with three workers registered on
    a fresh coordinator and a file of 3,000,000 bytes, the plan has three
    chunks and chunk [i] is posted for worker [i]. *)
Theorem distribute_work_round_robin :
  (∀ (getsize : jval → option Z) (c : Coordinator) (filepath : jval) (n : Z),
     getsize filepath = Some n →
     ∃ chunks : list (Z * Z),
       plan_chunks n chunk_size = Ok chunks
       ∧ distribute_work getsize filepath c
         = (Ok tt, set_file_chunks chunks c, round_posts c filepath chunks))
  ∧ (∀ (getsize : jval → option Z) (p : Z) (w0 w1 w2 f : string),
       w0 ≠ w1 → w0 ≠ w2 → w1 ≠ w2 →
       getsize (JStr f) = Some 3000000 →
       plan_chunks 3000000 chunk_size
       = Ok [(0, 1048576); (1048576, 1048576); (2097152, 902848)]
       ∧ posts_of (distribute_work getsize (JStr f)) (three_registered p w0 w1 w2)
         = [ post_of (three_registered p w0 w1 w2) w0 (JStr f) (0, 1048576);
             post_of (three_registered p w0 w1 w2) w1 (JStr f) (1048576, 1048576);
             post_of (three_registered p w0 w1 w2) w2 (JStr f) (2097152, 902848) ]).
Proof.
  split.
  - intros getsize c filepath n Hsize. by apply distribute_work_run.
  - intros getsize p w0 w1 w2 f H01 H02 H12 Hsize. split; [reflexivity|].
    destruct (distribute_work_run getsize (three_registered p w0 w1 w2) _ _ Hsize)
      as (chunks & Hplan & Hrun).
    change (plan_chunks 3000000 chunk_size)
      with (Ok (A := list (Z * Z)) [(0, 1048576); (1048576, 1048576); (2097152, 902848)])
      in Hplan.
    injection Hplan as <-.
    unfold posts_of. rewrite Hrun. simpl.
    by apply three_registered_round.
Qed.

Lemma distribute_work_round_robin_witness :
  (∃ chunks : list (Z * Z),
     plan_chunks (2 * chunk_size) chunk_size = Ok chunks
     ∧ distribute_work two_chunk_fs (JStr "app.log") first_down
       = (Ok tt, set_file_chunks chunks first_down,
          round_posts first_down (JStr "app.log") chunks))
  ∧ posts_of (distribute_work three_chunk_fs (JStr "app.log"))
      (three_registered 8000 "worker1" "worker2" "worker3")
    = [ post_of (three_registered 8000 "worker1" "worker2" "worker3") "worker1"
          (JStr "app.log") (0, 1048576);
        post_of (three_registered 8000 "worker1" "worker2" "worker3") "worker2"
          (JStr "app.log") (1048576, 1048576);
        post_of (three_registered 8000 "worker1" "worker2" "worker3") "worker3"
          (JStr "app.log") (2097152, 902848) ].
Proof.
  split.
  - apply (proj1 distribute_work_round_robin). reflexivity.
  - apply (proj2 distribute_work_round_robin three_chunk_fs 8000
             "worker1" "worker2" "worker3" "app.log"); done.
Defined.

(** C4 as stated fails: the cursor runs over all registered workers, not
    over the healthy ones.  With [w0] unhealthy and [w1] healthy, chunk 0 of
    a two-chunk file falls on [w0] and is posted for nobody; only chunk 1 is
    posted. *)
Lemma round_robin_skips_unhealthy_slot :
  healthy first_down "w0" = false
  ∧ healthy first_down "w1" = true
  ∧ plan_chunks (2 * chunk_size) chunk_size = Ok [(0, 1048576); (1048576, 1048576)]
  ∧ posts_of (distribute_work two_chunk_fs (JStr "app.log")) first_down
    = [ {| post_for := "w1"; post_port := 8000; json_filepath := JStr "app.log";
           json_start := 1048576; json_size := 1048576 |} ].
Proof. split_and!; reflexivity. Qed.

(** ** Recovery *)

Section RecoveryFacts.
Variable getsize : jval → option Z.

(** The loop of [handle_worker_failure] over results that all name the
    file [filepath]: one full round per result. *)
Lemma recovery_loop_run (filepath : jval) (n : Z) (chunks : list (Z * Z))
    (items : list jobject) :
  getsize filepath = Some n →
  plan_chunks n chunk_size = Ok chunks →
  (∀ r, r ∈ items → r !! "filepath" = Some filepath) →
  ∀ c : Coordinator,
  ∃ c' : Coordinator,
    for_each items
      (λ result,
         match result !! "filepath" with
         | Some filepath => distribute_work getsize filepath
         | None => raise (KeyError "filepath")
         end) c
    = (Ok tt, c', mjoin (replicate (length items) (round_posts c filepath chunks)))
    ∧ workers c' = workers c ∧ port c' = port c ∧ results c' = results c.
Proof.
  intros Hsize Hplan. induction items as [|r items IH]; intros Hall c.
  - by exists c.
  - destruct (distribute_work_run getsize c filepath n Hsize) as (chunks' & Hplan' & Hrun).
    assert (chunks' = chunks) as -> by congruence.
    destruct (IH (λ r' Hr', Hall r' (list_elem_of_further _ _ _ Hr'))
                (set_file_chunks chunks c)) as (c' & Hloop & Hw & Hp & Hr).
    exists c'. split; [|done].
    rewrite for_each_cons.
    erewrite bind_ok_ok; [ | rewrite (Hall r (list_elem_of_here _ _)); exact Hrun | exact Hloop ].
    reflexivity.
Qed.

Lemma handle_worker_failure_run (c : Coordinator) (worker_id : string)
    (items : list jobject) (filepath : jval) (n : Z) (chunks : list (Z * Z)) :
  results c !! worker_id = Some (PList items) →
  (∀ r, r ∈ items → r !! "filepath" = Some filepath) →
  getsize filepath = Some n →
  plan_chunks n chunk_size = Ok chunks →
  ∃ c' : Coordinator,
    handle_worker_failure getsize worker_id c
    = (Ok tt, c', mjoin (replicate (length items) (round_posts c filepath chunks)))
    ∧ workers c' = workers c ∧ port c' = port c
    ∧ results c' = delete worker_id (results c).
Proof.
  intros Hres Hall Hsize Hplan.
  destruct (recovery_loop_run filepath n chunks items Hsize Hplan Hall
              (set_results (delete worker_id (results c)) c))
    as (c' & Hloop & Hw & Hp & Hr).
  exists c'. split; [|done].
  unfold handle_worker_failure.
  erewrite bind_ok_ok; [ | reflexivity | ].
  2:{ cbv zeta. rewrite Hres. cbn [default from_option].
      erewrite bind_ok_ok; [ | reflexivity | exact Hloop ]. reflexivity. }
  reflexivity.
Qed.

(** A worker without an entry in [self.results]: nothing is sent. *)
Lemma handle_worker_failure_no_results (c : Coordinator) (worker_id : string) :
  results c !! worker_id = None →
  handle_worker_failure getsize worker_id c
  = (Ok tt, set_results (delete worker_id (results c)) c, []).
Proof.
  intros Hres. unfold handle_worker_failure.
  erewrite bind_ok_ok; [ | reflexivity | ].
  2:{ cbv zeta. rewrite Hres. reflexivity. }
  reflexivity.
Qed.

End RecoveryFacts.

(** [k] submissions of the same result, served one after the other. *)
Lemma serve_submits (worker_id : string) (r : jobject) (k : nat) :
  ∀ (c : Coordinator) (items : list jobject),
    results c !! worker_id = Some (PList items) →
    serve (replicate k (Submit worker_id r)) c
    = set_results (<[worker_id := PList (items ++ replicate k r)]> (results c)) c.
Proof.
  induction k as [|k IH]; intros c items Hres.
  - destruct c as [w rs p ch]. unfold set_results. simpl in *.
    rewrite app_nil_r. by rewrite insert_id.
  - assert (Hst : stored c worker_id = Some items) by (unfold stored; by rewrite Hres).
    cbn [replicate serve route].
    rewrite (receive_results_run c worker_id items r Hst). cbn [fst snd].
    rewrite (IH _ (items ++ [r])) by (simpl; by rewrite lookup_insert_eq).
    unfold set_results. simpl. rewrite insert_insert_eq, <- app_assoc. done.
Qed.

(** The coordinator [backlog (S k)] is reached from a fresh one by
    registering [w2] and serving [S k] submissions of [w1]. *)
Lemma backlog_reachable (k : nat) :
  serve (Register "w2" :: replicate (S k) (Submit "w1" (result_for "app.log"))) (init 8000)
  = backlog (S k).
Proof.
  cbn [replicate serve].
  rewrite (serve_submits "w1" (result_for "app.log") k _ [result_for "app.log"])
    by reflexivity.
  reflexivity.
Qed.

Lemma attempts_replicate (k : nat) (p : Post) :
  attempts (json_start p) (mjoin (replicate k [p])) = k.
Proof.
  unfold attempts. induction k as [|k IH]; [done|].
  change (mjoin (replicate (S k) [p])) with (p :: mjoin (replicate k [p])).
  rewrite filter_cons_True by done.
  cbn [length]. f_equal. exact IH.
Qed.

(** C5 as stated fails: no number bounds the attempts on a chunk.  With
    [k] results stored for the failed worker, one call of
    [handle_worker_failure] posts the single chunk of the file [k] times. *)
Lemma no_attempt_bound :
  ¬ ∃ max_attempts : nat, ∀ k : nat,
      (attempts 0 (posts_of (handle_worker_failure one_byte_fs "w1") (backlog k))
       ≤ max_attempts)%nat.
Proof.
  intros [max_attempts Hbound]. specialize (Hbound (S max_attempts)).
  destruct (handle_worker_failure_run one_byte_fs (backlog (S max_attempts)) "w1"
              (replicate (S max_attempts) (result_for "app.log")) (JStr "app.log") 1 [(0, 1)])
    as (c' & Hrun & _); try reflexivity.
  { intros r Hr. apply elem_of_replicate in Hr as [-> _]. reflexivity. }
  pose proof (attempts_replicate (S max_attempts)
                (post_of (backlog 0) "w2" (JStr "app.log") (0, 1))) as Hk.
  change (json_start _) with 0 in Hk.
  unfold posts_of in Hbound. rewrite Hrun, length_replicate in Hbound.
  change (attempts 0%Z (mjoin (replicate (S max_attempts)
                                 [post_of (backlog 0) "w2" (JStr "app.log") (0%Z, 1%Z)]))
          ≤ max_attempts)%nat in Hbound.
  rewrite Hk in Hbound. lia.
Qed.

(** C2, on the code. [handle_worker_failure] does not look at what was
    dispatched to the failed worker.  With [w1] and [w2] registered, chunks
    0 and 2 of a three-chunk file are posted for [w1] and chunk 1 for [w2].
    Once [w1] is reported unhealthy: if [w1] has one
    stored result naming the file, the only chunk posted again is chunk 1,
    for [w2]; if [w1] has submitted nothing, nothing is posted; if its
    stored result is the metrics dict a worker submits, the call raises
    [KeyError]. *)
Theorem handle_worker_failure_resends_by_position :
  (λ p, (post_for p, json_start p))
    <$> posts_of (distribute_work three_chunk_fs (JStr "app.log"))
          (serve [Register "w1"; Register "w2"] (init 8000))
  = [("w1", 0); ("w2", 1048576); ("w1", 2097152)]
  ∧ ODict.keys (workers (failed_worker "w1" "w2" [])) = ["w1"; "w2"]
  ∧ healthy (failed_worker "w1" "w2" []) "w1" = false
  ∧ posts_of (handle_worker_failure three_chunk_fs "w1")
      (failed_worker "w1" "w2" [result_for "app.log"])
    = [ {| post_for := "w2"; post_port := 8000; json_filepath := JStr "app.log";
           json_start := 1048576; json_size := 1048576 |} ]
  ∧ handle_worker_failure three_chunk_fs "w1" (failed_worker "w1" "w2" [])
    = (Ok tt, failed_worker "w1" "w2" [], [])
  ∧ outcome_of (handle_worker_failure three_chunk_fs "w1")
      (failed_worker "w1" "w2" [Worker.metrics_json sample_metrics])
    = Raise (KeyError "filepath").
Proof. split_and!; reflexivity. Qed.

(** ** The worker *)

Example splitlines_plain :
  Py.splitlines ("a" ++ String "010" ("b" ++ String "010" "")) = ["a"; "b"].
Proof. reflexivity. Qed.

Example splitlines_crlf :
  Py.splitlines ("a" ++ String "013" (String "010" (String "013" "b"))) = ["a"; ""; "b"].
Proof. reflexivity. Qed.

Example splitlines_empty : Py.splitlines "" = [].
Proof. reflexivity. Qed.

Example process_chunk_whole_file :
  MemFS.process_chunk "app.log" 0 1024
  = Ok {| Worker.lines := 4; Worker.errors := 2; Worker.warnings := 1 |}.
Proof. reflexivity. Qed.

Example process_chunk_second_line :
  MemFS.process_chunk "app.log" 11 16
  = Ok {| Worker.lines := 1; Worker.errors := 1; Worker.warnings := 0 |}.
Proof. reflexivity. Qed.

Example process_chunk_negative_offset :
  MemFS.process_chunk "app.log" (-1) 16
  = Ok {| Worker.lines := 0; Worker.errors := 0; Worker.warnings := 0 |}.
Proof. reflexivity. Qed.

(** C8. For every file system, filepath, offset and size, [process_chunk]
    returns metrics and never raises; when opening, seeking or reading
    raises, the metrics are all zero; when they succeed, the metrics count
    the lines of the data read, also if closing the file raises. *)
Theorem process_chunk_never_raises (file : Type)
    (open_r : string → outcome file) (seek : file → Z → outcome file)
    (read : file → Z → outcome (string * file)) (close : file → outcome unit)
    (filepath : string) (start size : Z) :
  (∃ m, Worker.process_chunk file open_r seek read close filepath start size = Ok m)
  ∧ (Worker.unreadable file open_r seek read filepath start size →
     Worker.process_chunk file open_r seek read close filepath start size
     = Ok {| Worker.lines := 0; Worker.errors := 0; Worker.warnings := 0 |})
  ∧ (∀ f f1 f2 data,
       open_r filepath = Ok f → seek f start = Ok f1 → read f1 size = Ok (data, f2) →
       Worker.process_chunk file open_r seek read close filepath start size
       = Ok {| Worker.lines := Z.of_nat (length (Py.splitlines data));
               Worker.errors := Worker.count_containing "ERROR" (Py.splitlines data);
               Worker.warnings := Worker.count_containing "WARNING" (Py.splitlines data) |}).
Proof.
  unfold Worker.process_chunk, Worker.try_block, Worker.unreadable, Worker.leave_with.
  split_and!.
  - destruct (open_r filepath) as [f|e]; [|by eexists].
    destruct (seek f start) as [f1|e]; [|destruct (close f); by eexists].
    destruct (read f1 size) as [[data f2]|e]; destruct (close _); by eexists.
  - destruct (open_r filepath) as [f|e]; [|done].
    destruct (seek f start) as [f1|e]; [|by destruct (close f)].
    destruct (read f1 size) as [[data f2]|e]; [done|by destruct (close f1)].
  - intros f f1 f2 data -> -> ->. by destruct (close f2).
Qed.

Lemma process_chunk_never_raises_witness :
  Worker.process_chunk unit no_files (λ f _, Ok f) (λ f _, Ok (""%string, f)) (λ _, Ok tt)
    "test_vectors/logs/missing.log" 0 1048576
  = Ok {| Worker.lines := 0; Worker.errors := 0; Worker.warnings := 0 |}.
Proof.
  apply (proj1 (proj2 (process_chunk_never_raises unit no_files (λ f _, Ok f)
                         (λ f _, Ok (""%string, f)) (λ _, Ok tt)
                         "test_vectors/logs/missing.log" 0 1048576))).
  exact I.
Defined.

Lemma update_worker_health_acknowledges_witness :
  ∃ c' : Coordinator,
    update_worker_health "w0" "unhealthy" (three_registered 8000 "w0" "w1" "w2")
    = (Ok health_response, c', [])
    ∧ results c' = results (three_registered 8000 "w0" "w1" "w2")
    ∧ ODict.keys (workers c') = ODict.keys (workers (three_registered 8000 "w0" "w1" "w2"))
    ∧ (∀ w, w ≠ "w0" →
         ODict.get w (workers c')
         = ODict.get w (workers (three_registered 8000 "w0" "w1" "w2")))
    ∧ match ODict.get "w0" (workers (three_registered 8000 "w0" "w1" "w2")) with
      | None => c' = three_registered 8000 "w0" "w1" "w2"
      | Some _ => ODict.get "w0" (workers c') = Some {| status := "unhealthy" |}
      end.
Proof. apply update_worker_health_acknowledges. Defined.

(** * Further properties *)

(** ** The routes and the registry *)

Section RouteFacts.

Lemma register_worker_run (c : Coordinator) (w : string) :
  register_worker w c
  = (Ok {| resp_status := 200; resp_text := "Worker registered" |},
     set_workers (ODict.set w {| status := "healthy" |} (workers c)) c, []).
Proof. reflexivity. Qed.

Lemma update_worker_health_full (c : Coordinator) (w new_status : string) :
  update_worker_health w new_status c
  = (Ok health_response,
     if ODict.mem w (workers c)
     then set_workers (ODict.set w {| status := new_status |} (workers c)) c
     else c, []).
Proof.
  unfold update_worker_health, mbind, M_bind, bind, get_self, put_self; simpl.
  by destruct (ODict.mem w (workers c)).
Qed.

(** The two outcomes of [receive_results]. *)
Lemma receive_results_cases (c : Coordinator) (w : string) (result : jobject) :
  (∃ items, stored c w = Some items
            ∧ receive_results w result c
              = (Ok received_response,
                 set_results (<[w := PList (items ++ [result])]> (results c)) c, []))
  ∨ (stored c w = None ∧ receive_results w result c = (Raise AttributeError, c, [])).
Proof.
  destruct (stored c w) as [items|] eqn:Hst.
  - left. exists items. split; [done|]. by apply receive_results_run.
  - right. split; [done|]. revert Hst.
    unfold stored, receive_results, mbind, M_bind, bind, get_self; simpl.
    by destruct (results c !! w) as [[n|q|items]|].
Qed.

Lemma get_None_not_key {V : Type} (d : list (string * V)) (k : string) :
  ODict.get k d = None ↔ k ∉ ODict.keys d.
Proof.
  unfold ODict.keys. induction d as [|[k' v] d IH]; simpl.
  - split; [intros _; apply not_elem_of_nil | done].
  - rewrite not_elem_of_cons.
    destruct (decide (k = k')) as [->|Hne].
    + split; [done | by intros [? _]].
    + rewrite IH. split; [by intros ? | by intros [_ ?]].
Qed.

(** Assigning to a key adds it at the end, or nothing. *)
Lemma keys_set {V : Type} (d : list (string * V)) (k : string) (v : V) :
  ODict.keys (ODict.set k v d)
  = if ODict.mem k d then ODict.keys d else ODict.keys d ++ [k].
Proof.
  destruct (ODict.mem k d) eqn:Hmem.
  - apply keys_set_present. by apply mem_true.
  - apply keys_set_absent. by apply mem_false.
Qed.

(** What a route does to the order of the registry. *)
Lemma route_keys (r : Request) (c : Coordinator) :
  ODict.keys (workers (route r c).1.2) = ODict.keys (workers c)
  ∨ ∃ w, r = Register w ∧ ODict.get w (workers c) = None
         ∧ ODict.keys (workers (route r c).1.2) = ODict.keys (workers c) ++ [w].
Proof.
  destruct r as [w|w res|w st]; simpl.
  - rewrite keys_set. destruct (ODict.mem w (workers c)) eqn:Hmem; [by left|].
    right. exists w. by rewrite <- mem_false.
  - left. by destruct (receive_results_cases c w res) as [(items & _ & ->)|[_ ->]].
  - left. rewrite update_worker_health_full. simpl.
    destruct (ODict.mem w (workers c)) eqn:Hmem; [|done].
    simpl. rewrite keys_set. by rewrite Hmem.
Qed.

End RouteFacts.

(** X1. [register_worker] always answers 200 "Worker registered" and issues
    no request.  Afterwards the worker passes the status test of
    [send_work], whatever its status was; a worker already registered keeps
    its place in the registry and a new one goes last; the other workers,
    the stored results, the port and the chunk list are left as they were. *)
Theorem register_worker_registers (c : Coordinator) (w : string) :
  ∃ c' : Coordinator,
    register_worker w c
    = (Ok {| resp_status := 200; resp_text := "Worker registered" |}, c', [])
    ∧ healthy c' w = true
    ∧ ODict.keys (workers c')
      = (if ODict.mem w (workers c) then ODict.keys (workers c)
         else ODict.keys (workers c) ++ [w])
    ∧ (∀ w', w' ≠ w → ODict.get w' (workers c') = ODict.get w' (workers c))
    ∧ results c' = results c ∧ port c' = port c ∧ file_chunks c' = file_chunks c.
Proof.
  eexists. split; [apply register_worker_run|]. simpl. split_and!; try done.
  - unfold healthy. simpl. by rewrite get_set_eq, bool_decide_eq_true.
  - apply keys_set.
  - intros w' Hne. by apply get_set_ne.
Qed.

(** X2. Whatever sequence of [/register], [/submit] and [/health] requests
    a fresh coordinator serves, no worker id occurs twice in its registry:
    registering an id again updates its record. *)
Theorem registry_keys_stay_distinct (reqs : list Request) (p : Z) :
  NoDup (ODict.keys (workers (serve reqs (init p)))).
Proof.
  assert (Hinit : NoDup (ODict.keys (workers (init p)))) by apply NoDup_nil_2.
  revert Hinit. generalize (init p).
  induction reqs as [|r reqs IH]; intros c Hc; [done|].
  simpl. apply IH.
  destruct (route_keys r c) as [-> | (w & _ & Hnone & ->)]; [done|].
  apply NoDup_app. split_and!; [done | | apply NoDup_singleton].
  intros x Hx Hx'. apply list_elem_of_singleton in Hx' as ->.
  by apply get_None_not_key in Hnone.
Qed.

(** X3. The registry only grows: after serving any requests, the workers
    registered before are still there, in the same order, followed by the
    new ones.  No route removes a worker. *)
Theorem registry_only_grows (reqs : list Request) (c : Coordinator) :
  ∃ added : list string,
    ODict.keys (workers (serve reqs c)) = ODict.keys (workers c) ++ added.
Proof.
  revert c. induction reqs as [|r reqs IH]; intros c.
  - exists []. by rewrite app_nil_r.
  - destruct (IH (route r c).1.2) as [added Hadded]. simpl. rewrite Hadded.
    destruct (route_keys r c) as [-> | (w & _ & _ & ->)].
    + by exists added.
    + exists (w :: added). by rewrite <- app_assoc.
Qed.

(** X4. No route dispatches work or touches the port or the chunk list.
    A route answers with status 200, except a submission for a key of
    [self.results] that holds a number: that one raises [AttributeError]
    and leaves the coordinator as it was. *)
Theorem routes_never_dispatch (r : Request) (c : Coordinator) :
  (route r c).2 = []
  ∧ port (route r c).1.2 = port c
  ∧ file_chunks (route r c).1.2 = file_chunks c
  ∧ ((∃ resp, (route r c).1.1 = Ok resp ∧ resp_status resp = 200)
     ∨ (∃ w result, r = Submit w result ∧ stored c w = None
                    ∧ route r c = (Raise AttributeError, c, []))).
Proof.
  destruct r as [w|w res|w st]; simpl.
  - split_and!; try done. left. by eexists.
  - destruct (receive_results_cases c w res) as [(items & _ & ->)|[Hst ->]]; simpl.
    + split_and!; try done. left. by eexists.
    + split_and!; try done. right. by exists w, res.
  - rewrite update_worker_health_full. simpl.
    split_and!; try done; try by destruct (ODict.mem w (workers c)).
    left. by eexists.
Qed.

(** ** The store of results *)

Section StoreFacts.

Lemma stored_set_workers (c : Coordinator) (ws : list (string * WorkerInfo)) (w : string) :
  stored (set_workers ws c) w = stored c w.
Proof. reflexivity. Qed.

Lemma lists_only_set_workers (c : Coordinator) (ws : list (string * WorkerInfo)) :
  lists_only c → lists_only (set_workers ws c).
Proof. intros Hc. exact Hc. Qed.

Lemma stored_insert_ne (c : Coordinator) (w w' : string) (items : list jobject) :
  w' ≠ w →
  stored (set_results (<[w' := PList items]> (results c)) c) w = stored c w.
Proof. intros Hne. unfold stored. simpl. by rewrite lookup_insert_ne. Qed.

(** Serving requests appends to a worker's list what it submits. *)
Lemma stored_serve (w : string) (reqs : list Request) :
  ∀ (c : Coordinator) (items : list jobject),
    lists_only c → stored c w = Some items →
    stored (serve reqs c) w = Some (items ++ submitted_by w reqs).
Proof.
  induction reqs as [|r reqs IH]; intros c items Hc Hst.
  - by rewrite app_nil_r.
  - pose proof (lists_only_route r c Hc) as Hc'.
    cbn [serve]. destruct r as [w'|w' res|w' st].
    + apply (IH _ items Hc'). exact Hst.
    + destruct (lists_only_stored c w' Hc) as [items' Hst'].
      rewrite (IH _ (if decide (w' = w) then items ++ [res] else items) Hc').
      * unfold submitted_by. cbn [omap list_omap].
        destruct (decide (w' = w)); [by rewrite <- app_assoc | done].
      * simpl. rewrite (receive_results_run c w' items' res Hst'). simpl.
        destruct (decide (w' = w)) as [->|Hne].
        -- rewrite stored_after_insert. congruence.
        -- by rewrite stored_insert_ne.
    + apply (IH _ items Hc').
      change (route (Health w' st) c) with (update_worker_health w' st c).
      rewrite update_worker_health_full. simpl.
      by destruct (ODict.mem w' (workers c)).
Qed.

End StoreFacts.

(** X5. After any sequence of routed requests on a fresh coordinator, the
    list kept for each worker id is exactly what was submitted under that
    id, in the order of submission: nothing is lost, merged or reordered,
    and registrations and health reports do not touch it. *)
Theorem store_is_submission_history (reqs : list Request) (p : Z) (w : string) :
  stored (serve reqs (init p)) w = Some (submitted_by w reqs).
Proof.
  apply (stored_serve w reqs (init p) []); [|reflexivity].
  intros k v Hk. simpl in Hk. by rewrite lookup_empty in Hk.
Qed.

(** X6. Submissions of two different workers commute: served in either
    order they leave the same coordinator. *)
Theorem submissions_of_two_workers_commute (c : Coordinator) (w1 w2 : string)
    (r1 r2 : jobject) (items1 items2 : list jobject) :
  w1 ≠ w2 →
  stored c w1 = Some items1 → stored c w2 = Some items2 →
  serve [Submit w1 r1; Submit w2 r2] c = serve [Submit w2 r2; Submit w1 r1] c.
Proof.
  intros Hne H1 H2. cbn [serve route].
  rewrite (receive_results_run c w1 items1 r1 H1), (receive_results_run c w2 items2 r2 H2).
  cbn [fst snd].
  rewrite (receive_results_run _ w2 items2 r2) by (by rewrite stored_insert_ne).
  rewrite (receive_results_run _ w1 items1 r1) by (by rewrite stored_insert_ne).
  unfold set_results. simpl. f_equal. by apply insert_insert_ne.
Qed.

Lemma submissions_of_two_workers_commute_witness :
  serve [Submit "w1" (Worker.metrics_json sample_metrics); Submit "w2" (result_for "app.log")]
    (init 8000)
  = serve [Submit "w2" (result_for "app.log"); Submit "w1" (Worker.metrics_json sample_metrics)]
      (init 8000).
Proof.
  apply (submissions_of_two_workers_commute (init 8000) "w1" "w2" _ _ [] []);
    [discriminate | reflexivity | reflexivity].
Defined.

(** ** Health and dispatch *)

(** X7. A report of any status other than the exact string "healthy"
    stops [send_work] from posting for that worker; registering it again
    makes [send_work] post for it again. *)
Theorem unhealthy_report_stops_send_work (c : Coordinator) (w new_status : string)
    (filepath : jval) (start size : Z) :
  is_Some (ODict.get w (workers c)) →
  new_status ≠ "healthy" →
  posts_of (update_worker_health w new_status ;; send_work w filepath start size) c = []
  ∧ posts_of (update_worker_health w new_status ;; register_worker w ;;
              send_work w filepath start size) c
    = [ {| post_for := w; post_port := port c; json_filepath := filepath;
           json_start := start; json_size := size |} ].
Proof.
  intros Hreg Hst. apply mem_true in Hreg. unfold posts_of. split.
  - erewrite bind_ok_ok; [ | apply update_worker_health_full | apply send_work_run ].
    rewrite Hreg. unfold healthy. simpl. rewrite get_set_eq. simpl.
    case_bool_decide as Hd; [congruence | done].
  - erewrite bind_ok_ok; [ | apply update_worker_health_full | ].
    2:{ erewrite bind_ok_ok; [ | apply register_worker_run | apply send_work_run ].
        reflexivity. }
    rewrite Hreg. unfold healthy. simpl. rewrite get_set_eq. simpl.
    reflexivity.
Qed.

Lemma unhealthy_report_stops_send_work_witness :
  posts_of (update_worker_health "worker1" "Healthy" ;;
            send_work "worker1" (JStr "app.log") 0 1048576)
    (three_registered 8000 "worker1" "worker2" "worker3") = []
  ∧ posts_of (update_worker_health "worker1" "Healthy" ;; register_worker "worker1" ;;
              send_work "worker1" (JStr "app.log") 0 1048576)
      (three_registered 8000 "worker1" "worker2" "worker3")
    = [ {| post_for := "worker1";
           post_port := port (three_registered 8000 "worker1" "worker2" "worker3");
           json_filepath := JStr "app.log"; json_start := 0; json_size := 1048576 |} ].
Proof.
  apply unhealthy_report_stops_send_work; [by eexists | discriminate].
Defined.

(** ** More on [distribute_work] *)

Section MoreDistributionFacts.
Variable getsize : jval → option Z.

Lemma mjoin_imap_singleton {A B : Type} (l : list A) :
  ∀ g : nat → A → B, mjoin (imap (λ i x, [g i x]) l) = imap g l.
Proof.
  induction l as [|x l IH]; intros g; [done|].
  rewrite !imap_cons. cbn [mjoin list_join app]. f_equal. apply (IH (g ∘ S)).
Qed.

(** The slot of chunk [i] always names a registered worker when there is
    one. *)
Lemma slot_worker (c : Coordinator) (i : nat) :
  workers c ≠ [] →
  ∃ w, ODict.keys (workers c) !! (i mod length (workers c))%nat = Some w
       ∧ w ∈ ODict.keys (workers c).
Proof.
  intros Hne.
  destruct (lookup_lt_is_Some_2 (ODict.keys (workers c)) (i mod length (workers c))%nat)
    as [w Hw].
  { unfold ODict.keys. rewrite length_fmap. apply Nat.mod_upper_bound.
    by destruct (workers c). }
  exists w. split; [done|]. by eapply list_elem_of_lookup_2.
Qed.




(** When every registered worker is healthy, each slot posts. *)
Lemma round_posts_all_healthy (c : Coordinator) (filepath : jval) (chunks : list (Z * Z)) :
  all_healthy c → workers c ≠ [] →
  round_posts c filepath chunks
  = imap (λ i chunk,
            post_of c (default "" (ODict.keys (workers c) !! (i mod length (workers c))%nat))
              filepath chunk) chunks.
Proof.
  intros Hall Hne. unfold round_posts.
  rewrite <- (mjoin_imap_singleton chunks
                (λ i chunk,
                   post_of c
                     (default "" (ODict.keys (workers c) !! (i mod length (workers c))%nat))
                     filepath chunk)).
  f_equal. apply imap_ext. intros i chunk _.
  unfold slot_posts. destruct (slot_worker c i Hne) as (w & -> & Hw).
  by rewrite (Hall w Hw).
Qed.

(** [distribute_work] leaves the registry, the results and the port. *)
Lemma distribute_work_keeps (c : Coordinator) (filepath : jval) :
  workers (distribute_work getsize filepath c).1.2 = workers c
  ∧ results (distribute_work getsize filepath c).1.2 = results c
  ∧ port (distribute_work getsize filepath c).1.2 = port c.
Proof.
  destruct (getsize filepath) as [n|] eqn:Hsize.
  - destruct (distribute_work_run getsize c filepath n Hsize) as (chunks & _ & ->). done.
  - by rewrite (distribute_work_oserror getsize c filepath Hsize).
Qed.

End MoreDistributionFacts.

(** X8. [distribute_work] never changes the registry, the stored results
    or the port, and ends in one of two ways: when [os.path.getsize] raises
    it raises too, having changed nothing and posted nothing; otherwise it
    returns normally. *)
Theorem distribute_work_frame (getsize : jval → option Z) (c : Coordinator)
    (filepath : jval) :
  workers (state_after (distribute_work getsize filepath) c) = workers c
  ∧ results (state_after (distribute_work getsize filepath) c) = results c
  ∧ port (state_after (distribute_work getsize filepath) c) = port c
  ∧ match getsize filepath with
    | None => ∃ e, distribute_work getsize filepath c = (Raise e, c, [])
    | Some _ => outcome_of (distribute_work getsize filepath) c = Ok tt
    end.
Proof.
  unfold state_after, outcome_of.
  destruct (getsize filepath) as [n|] eqn:Hsize.
  - destruct (distribute_work_run getsize c filepath n Hsize) as (chunks & _ & ->). done.
  - rewrite (distribute_work_oserror getsize c filepath Hsize).
    split_and!; try done. by eexists.
Qed.

(** X9. With an empty registry, or for a file of size 0, [distribute_work]
    returns normally without posting anything.  The chunk list is stored
    all the same: it is the plan of the file, and empty for size 0. *)
Theorem distribute_work_nothing_to_send (getsize : jval → option Z) (c : Coordinator)
    (filepath : jval) (n : Z) :
  getsize filepath = Some n →
  workers c = [] ∨ n = 0 →
  ∃ chunks : list (Z * Z),
    plan_chunks n chunk_size = Ok chunks
    ∧ distribute_work getsize filepath c = (Ok tt, set_file_chunks chunks c, [])
    ∧ (n = 0 → chunks = []).
Proof.
  intros Hsize Hcase.
  destruct (distribute_work_run getsize c filepath n Hsize) as (chunks & Hplan & Hrun).
  exists chunks. split; [done|].
  assert (Hzero : n = 0 → chunks = []).
  { intros ->. vm_compute in Hplan. congruence. }
  split; [|done]. rewrite Hrun. f_equal.
  destruct Hcase as [Hw | Hn].
  - unfold round_posts.
    exact (slot_posts_no_workers c filepath chunks Hw 0%nat).
  - by rewrite (Hzero Hn).
Qed.

Lemma distribute_work_nothing_to_send_witness :
  ∃ chunks : list (Z * Z),
    plan_chunks 3000000 chunk_size = Ok chunks
    ∧ distribute_work three_chunk_fs (JStr "app.log") (init 8000)
      = (Ok tt, set_file_chunks chunks (init 8000), [])
    ∧ (3000000 = 0 → chunks = []).
Proof.
  apply distribute_work_nothing_to_send; [reflexivity | by left].
Defined.

(** X10. When the registry is not empty and every registered worker is
    healthy, [distribute_work] posts every chunk of the plan exactly once,
    in plan order, and the request for chunk [i] is for the worker at
    position [i mod n] of the registry. *)
Theorem distribute_work_all_healthy_covers (getsize : jval → option Z) (c : Coordinator)
    (filepath : jval) (n : Z) :
  getsize filepath = Some n →
  all_healthy c → workers c ≠ [] →
  ∃ chunks : list (Z * Z),
    plan_chunks n chunk_size = Ok chunks
    ∧ chunk_of <$> posts_of (distribute_work getsize filepath) c = chunks
    ∧ ∀ (i : nat) (p : Post),
        posts_of (distribute_work getsize filepath) c !! i = Some p →
        ODict.keys (workers c) !! (i mod length (workers c))%nat = Some (post_for p).
Proof.
  intros Hsize Hall Hne.
  destruct (distribute_work_run getsize c filepath n Hsize) as (chunks & Hplan & Hrun).
  exists chunks. split; [done|]. unfold posts_of. rewrite Hrun. cbn [snd].
  rewrite (round_posts_all_healthy c filepath chunks Hall Hne). split.
  - apply list_eq. intros i. rewrite list_lookup_fmap, list_lookup_imap.
    by destruct (chunks !! i) as [[start size]|].
  - intros i p. rewrite list_lookup_imap.
    destruct (chunks !! i) as [chunk|]; [|done]. intros [= <-].
    destruct (slot_worker c i Hne) as (w & Hw & _). by rewrite Hw.
Qed.

Lemma distribute_work_all_healthy_covers_witness :
  ∃ chunks : list (Z * Z),
    plan_chunks 3000000 chunk_size = Ok chunks
    ∧ chunk_of <$> posts_of (distribute_work three_chunk_fs (JStr "app.log"))
                     (serve [Register "w1"; Register "w2"] (init 8000)) = chunks
    ∧ ∀ (i : nat) (p : Post),
        posts_of (distribute_work three_chunk_fs (JStr "app.log"))
          (serve [Register "w1"; Register "w2"] (init 8000)) !! i = Some p →
        ODict.keys (workers (serve [Register "w1"; Register "w2"] (init 8000)))
          !! (i mod length (workers (serve [Register "w1"; Register "w2"] (init 8000))))%nat
        = Some (post_for p).
Proof.
  apply distribute_work_all_healthy_covers; [reflexivity | | discriminate].
  intros w Hw. simpl in Hw.
  apply elem_of_cons in Hw as [->|Hw]; [reflexivity|].
  apply list_elem_of_singleton in Hw as ->. reflexivity.
Defined.


(** X12. [distribute_work] keeps no record of what it has sent: called a
    second time on the same file it leaves the same coordinator and posts
    the same requests once more. *)
Theorem distribute_work_twice (getsize : jval → option Z) (c : Coordinator)
    (filepath : jval) (n : Z) :
  getsize filepath = Some n →
  (distribute_work getsize filepath ;; distribute_work getsize filepath) c
  = (Ok tt, state_after (distribute_work getsize filepath) c,
     posts_of (distribute_work getsize filepath) c
     ++ posts_of (distribute_work getsize filepath) c).
Proof.
  intros Hsize.
  destruct (distribute_work_run getsize c filepath n Hsize) as (chunks & Hplan & Hrun).
  destruct (distribute_work_run getsize (set_file_chunks chunks c) filepath n Hsize)
    as (chunks' & Hplan' & Hrun').
  assert (chunks' = chunks) as -> by congruence.
  erewrite bind_ok_ok; [ | exact Hrun | exact Hrun' ].
  unfold state_after, posts_of. rewrite Hrun. reflexivity.
Qed.

Lemma distribute_work_twice_witness :
  (distribute_work three_chunk_fs (JStr "app.log") ;;
   distribute_work three_chunk_fs (JStr "app.log")) first_down
  = (Ok tt, state_after (distribute_work three_chunk_fs (JStr "app.log")) first_down,
     posts_of (distribute_work three_chunk_fs (JStr "app.log")) first_down
     ++ posts_of (distribute_work three_chunk_fs (JStr "app.log")) first_down).
Proof. apply (distribute_work_twice three_chunk_fs first_down (JStr "app.log") 3000000). reflexivity. Defined.

(** ** More on [handle_worker_failure] *)

Section MoreRecoveryFacts.
Variable getsize : jval → option Z.

(** The state a sequence ends in. *)
Lemma bind_state {A B : Type} (m : M A) (f : A → M B) (c : Coordinator) :
  ((m ≫= f) c).1.2
  = match (m c).1.1 with
    | Ok a => (f a (m c).1.2).1.2
    | Raise _ => (m c).1.2
    end.
Proof.
  unfold mbind, M_bind, bind. destruct (m c) as [[[a|e] c1] t1]; [|done].
  simpl. by destruct (f a c1) as [[r c2] t2].
Qed.

(** A property of the coordinator that every pass of a loop keeps is kept
    by the loop, also when a pass raises. *)
Lemma for_each_preserves {A : Type} (P : Coordinator → Prop) (body : A → M unit)
    (l : list A) :
  (∀ x c, P c → P (body x c).1.2) →
  ∀ c, P c → P (for_each l body c).1.2.
Proof.
  intros Hbody. induction l as [|x l IH]; intros c Hc; [done|].
  rewrite for_each_cons, bind_state.
  destruct (body x c).1.1 eqn:Hout; [apply IH|]; by apply Hbody.
Qed.


End MoreRecoveryFacts.

(** X13. However [handle_worker_failure] ends, normally or with an
    exception, it has removed the entry of the worker from [self.results]
    and left the other entries, the registry and the port as they were.
    For a worker without an entry it does nothing at all. *)
Theorem handle_worker_failure_always_pops (getsize : jval → option Z) (c : Coordinator)
    (w : string) :
  results (state_after (handle_worker_failure getsize w) c) = delete w (results c)
  ∧ workers (state_after (handle_worker_failure getsize w) c) = workers c
  ∧ port (state_after (handle_worker_failure getsize w) c) = port c
  ∧ match results c !! w with
    | None => handle_worker_failure getsize w c = (Ok tt, c, [])
    | Some _ => True
    end.
Proof.
  set (P := λ c' : Coordinator,
              results c' = delete w (results c) ∧ workers c' = workers c ∧ port c' = port c).
  assert (HP : P (state_after (handle_worker_failure getsize w) c)).
  { unfold state_after, handle_worker_failure. rewrite bind_state. cbn [get_self fst snd].
    cbv zeta. rewrite bind_state. cbn [put_self fst snd].
    destruct (default (PList []) (results c !! w)) as [k|q|items]; [done | done |].
    apply for_each_preserves; [|done].
    intros r c0 Hc0. destruct (r !! "filepath") as [fp|]; [|done].
    destruct (distribute_work_keeps getsize c0 fp) as (Hw & Hr & Hp).
    unfold P in *. rewrite Hw, Hr, Hp. done. }
  destruct HP as (Hr & Hw & Hp). split_and!; try done.
  destruct (results c !! w) eqn:Hres; [done|].
  rewrite (handle_worker_failure_no_results getsize c w Hres).
  rewrite delete_id by done. by destruct c.
Qed.



(** X15. The result a worker submits is its metrics dict, which has no
    ["filepath"]: when the first stored result of a worker is such a dict,
    [handle_worker_failure] raises [KeyError] without posting anything,
    and the worker's results are dropped. *)
Theorem worker_metrics_cannot_drive_recovery (getsize : jval → option Z)
    (c : Coordinator) (w : string) (m : Worker.metrics) (rest : list jobject) :
  results c !! w = Some (PList (Worker.metrics_json m :: rest)) →
  handle_worker_failure getsize w c
  = (Raise (KeyError "filepath"), set_results (delete w (results c)) c, []).
Proof.
  intros Hres. unfold handle_worker_failure.
  erewrite bind_ok_ok; [ | reflexivity | ].
  2:{ cbv zeta. rewrite Hres. cbn [default from_option].
      erewrite bind_ok_ok; [ | reflexivity | ].
      2:{ unfold id. rewrite for_each_cons. apply bind_raise.
          assert (Worker.metrics_json m !! "filepath" = None) as -> by reflexivity.
          reflexivity. }
      reflexivity. }
  reflexivity.
Qed.

Lemma worker_metrics_cannot_drive_recovery_witness :
  handle_worker_failure three_chunk_fs "w1"
    (serve [Register "w1"; Register "w2"; Submit "w1" (Worker.metrics_json sample_metrics)]
       (init 8000))
  = (Raise (KeyError "filepath"),
     set_results
       (delete "w1"
          (results (serve [Register "w1"; Register "w2";
                           Submit "w1" (Worker.metrics_json sample_metrics)] (init 8000))))
       (serve [Register "w1"; Register "w2"; Submit "w1" (Worker.metrics_json sample_metrics)]
          (init 8000)), []).
Proof.
  apply (worker_metrics_cannot_drive_recovery three_chunk_fs _ "w1" sample_metrics []).
  reflexivity.
Defined.

(** X16. When the entry of the worker id in [self.results] is a number, as
    [process_file] leaves under its four keys, [handle_worker_failure]
    raises [TypeError]; the entry has been removed before. *)
Theorem handle_worker_failure_on_number (getsize : jval → option Z) (c : Coordinator)
    (w : string) :
  stored c w = None →
  handle_worker_failure getsize w c
  = (Raise TypeError, set_results (delete w (results c)) c, []).
Proof.
  unfold stored. intros Hst. unfold handle_worker_failure.
  erewrite bind_ok_ok; [ | reflexivity | ].
  2:{ cbv zeta.
      destruct (results c !! w) as [[k|q|items]|]; try done;
        cbn [default from_option];
        (erewrite bind_ok_ok; [ | reflexivity | reflexivity ]); reflexivity. }
  reflexivity.
Qed.

Lemma handle_worker_failure_on_number_witness :
  handle_worker_failure three_chunk_fs "total_requests" after_job
  = (Raise TypeError, set_results (delete "total_requests" (results after_job)) after_job, []).
Proof. apply handle_worker_failure_on_number. reflexivity. Defined.

(** ** More on [process_file] and the plan *)

(** X17. [process_file] replaces [self.results]: every list of results
    submitted before is gone afterwards, while the registry, the port and
    the chunk list are kept.  A second call changes nothing more.  A later
    submission under a worker id that is none of the four keys is accepted
    and stored beside the four numbers. *)
Theorem process_file_discards_results (c : Coordinator) (filepath filepath' : string) :
  (∀ w, w ∉ aggregate_keys →
        results (state_after (process_file filepath) c) !! w = None)
  ∧ workers (state_after (process_file filepath) c) = workers c
  ∧ port (state_after (process_file filepath) c) = port c
  ∧ file_chunks (state_after (process_file filepath) c) = file_chunks c
  ∧ state_after (process_file filepath') (state_after (process_file filepath) c)
    = state_after (process_file filepath) c
  ∧ (∀ w result, w ∉ aggregate_keys →
       receive_results w result (state_after (process_file filepath) c)
       = (Ok received_response,
          set_results (<[w := PList [result]]> fixed_aggregate)
            (state_after (process_file filepath) c), [])).
Proof.
  assert (Hnone : ∀ w, w ∉ aggregate_keys → fixed_aggregate !! w = None).
  { intros w Hw. unfold aggregate_keys in Hw.
    rewrite !not_elem_of_cons in Hw. destruct Hw as (H1 & H2 & H3 & H4 & _).
    unfold fixed_aggregate. rewrite !lookup_insert_ne by done. apply lookup_empty. }
  split_and!; try done.
  intros w result Hw.
  apply (receive_results_run (state_after (process_file filepath) c) w [] result).
  unfold stored. change (results (state_after (process_file filepath) c)) with fixed_aggregate.
  by rewrite (Hnone w Hw).
Qed.

Section PlanSize.

Lemma plan_chunks_seq (file_size size : Z) :
  0 < size →
  plan_chunks file_size size
  = Ok ((λ k : nat, (Z.of_nat k * size, Z.min size (file_size - Z.of_nat k * size)))
        <$> seq 0 (Py.range_len 0 file_size size)).
Proof.
  intros Hsz. unfold plan_chunks, Py.range.
  destruct (Z.eqb_spec size 0) as [|_]; [lia|].
  destruct (Z.ltb_spec 0 size) as [_|]; [|lia].
  by rewrite <- list_fmap_compose.
Qed.

(** The total of the lengths of [chunks]. *)
Lemma full_chunks_total (file_size size : Z) (m : nat) :
  ∀ k0 : nat,
    (Z.of_nat k0 + Z.of_nat m) * size <= file_size → 0 < size →
    foldr Z.add 0
      (snd <$> ((λ k : nat, (Z.of_nat k * size, Z.min size (file_size - Z.of_nat k * size)))
                <$> seq k0 m))
    = Z.of_nat m * size.
Proof.
  induction m as [|m IH]; intros k0 Hle Hsz; [done|].
  cbn [seq fmap list_fmap foldr snd]. rewrite (IH (S k0)) by lia. nia.
Qed.

End PlanSize.

(** X18. For [file_size >= 0] and [chunk_size > 0] the plan has
    [ceil(file_size / chunk_size)] chunks and their lengths add up to
    [file_size]. *)
Theorem chunk_plan_count_and_total (file_size size : Z) :
  0 <= file_size → 0 < size →
  ∃ chunks : list (Z * Z),
    plan_chunks file_size size = Ok chunks
    ∧ Z.of_nat (length chunks) = (file_size + size - 1) / size
    ∧ foldr Z.add 0 (snd <$> chunks) = file_size.
Proof.
  intros Hfs Hsz. eexists. split; [by apply plan_chunks_seq|].
  rewrite length_fmap, length_seq.
  destruct (decide (file_size = 0)) as [->|Hpos].
  - rewrite range_len_nonpos by lia. split; [|done].
    simpl. symmetry. apply Z.div_small. lia.
  - destruct (range_len_pos file_size size ltac:(lia) Hsz) as (Hlo & Hhi & Hone).
    set (n := Py.range_len 0 file_size size) in *. split.
    + apply (Z.div_unique_pos _ _ _ (file_size + size - 1 - Z.of_nat n * size)); lia.
    + destruct n as [|m]; [lia|].
      rewrite seq_S, !fmap_app, foldr_app. cbn [fmap list_fmap foldr snd].
      replace (foldr Z.add _ _) with
        (foldr Z.add 0
           (snd <$> ((λ k : nat, (Z.of_nat k * size,
                                  Z.min size (file_size - Z.of_nat k * size)))
                     <$> seq 0 m))
         + (Z.min size (file_size - Z.of_nat (0 + m) * size) + 0)).
      * rewrite (full_chunks_total file_size size m 0%nat) by lia. simpl. lia.
      * generalize (Z.min size (file_size - Z.of_nat (0 + m) * size) + 0).
        generalize (snd <$> ((λ k : nat, (Z.of_nat k * size,
                                          Z.min size (file_size - Z.of_nat k * size)))
                             <$> seq 0 m)).
        intros l z. induction l as [|x l IH]; simpl; lia.
Qed.

Lemma chunk_plan_count_and_total_witness :
  ∃ chunks : list (Z * Z),
    plan_chunks 3000000 chunk_size = Ok chunks
    ∧ Z.of_nat (length chunks) = (3000000 + chunk_size - 1) / chunk_size
    ∧ foldr Z.add 0 (snd <$> chunks) = 3000000.
Proof. apply chunk_plan_count_and_total; [lia | reflexivity]. Defined.

(** ** More on the worker *)

Section TextFacts.

Lemma prefix_spec (needle hay : string) :
  String.prefix needle hay = true ↔ ∃ post, hay = String.append needle post.
Proof.
  revert hay. induction needle as [|a needle IH]; intros hay.
  - split; [intros _; by exists hay | by destruct hay].
  - destruct hay as [|b hay]; simpl.
    + split; [done | by intros [post ?]].
    + destruct (Ascii.ascii_dec a b) as [->|Hne].
      * rewrite IH. split; intros [post Hpost]; exists post.
        -- change (String b hay = String b (String.append needle post)).
           by rewrite Hpost.
        -- change (String b hay = String b (String.append needle post)) in Hpost.
           by injection Hpost.
      * split; [done|]. intros [post Hpost].
        change (String b hay = String a (String.append needle post)) in Hpost.
        congruence.
Qed.

(** [needle in hay] holds exactly when [needle] occurs in [hay]. *)
Lemma contains_spec (needle hay : string) :
  Py.contains needle hay = true
  ↔ ∃ pre post, hay = String.append pre (String.append needle post).
Proof.
  split.
  - induction hay as [|b hay IH].
    + cbn [Py.contains]. destruct (String.prefix needle "") eqn:Hp; [|done].
      intros _. apply prefix_spec in Hp as [post Hpost].
      exists ""%string, post. exact Hpost.
    + cbn [Py.contains]. destruct (String.prefix needle (String b hay)) eqn:Hp.
      * intros _. apply prefix_spec in Hp as [post Hpost].
        exists ""%string, post. exact Hpost.
      * intros Hc. destruct (IH Hc) as (pre & post & ->).
        by exists (String b pre), post.
  - intros (pre & post & ->). induction pre as [|b pre IH].
    + assert (Hp : String.prefix needle (String.append needle post) = true)
        by (apply prefix_spec; by exists post).
      change (String.append "" (String.append needle post))
        with (String.append needle post).
      destruct (String.append needle post); cbn [Py.contains]; by rewrite Hp.
    + change (Py.contains needle
                (String b (String.append pre (String.append needle post))) = true).
      cbn [Py.contains]. rewrite IH.
      by destruct (String.prefix needle _).
Qed.

Lemma count_containing_bounds (word : string) (ls : list string) :
  0 <= Worker.count_containing word ls <= Z.of_nat (length ls).
Proof.
  induction ls as [|l ls IH]; [done|].
  cbn [Worker.count_containing foldr length].
  fold (Worker.count_containing word ls).
  destruct (Py.contains word l); lia.
Qed.

Lemma count_containing_filter (word : string) (ls : list string) :
  Worker.count_containing word ls
  = Z.of_nat (length (filter (λ l, Py.contains word l = true) ls)).
Proof.
  induction ls as [|l ls IH]; [done|].
  cbn [Worker.count_containing foldr]. fold (Worker.count_containing word ls).
  destruct (Py.contains word l) eqn:Hc.
  - rewrite filter_cons_True by done. cbn [length]. lia.
  - rewrite filter_cons_False by (by rewrite Hc). done.
Qed.

(** Reading one line up to its line feed. *)
Lemma splitlines_from_line (line rest : string) :
  one_line line →
  ∀ cur : list ascii,
    Py.splitlines_from cur (String.append line (String "010" rest))
    = string_of_list_ascii (reverse cur ++ list_ascii_of_string line)
      :: Py.splitlines_from [] rest.
Proof.
  unfold one_line. induction line as [|a line IH]; intros Hline cur.
  - simpl. by rewrite app_nil_r.
  - cbn [list_ascii_of_string] in Hline. apply Forall_cons in Hline as [Ha Hline].
    change (String.append (String a line) (String "010" rest))
      with (String a (String.append line (String "010" rest))).
    cbn [Py.splitlines_from]. rewrite Ha.
    rewrite (IH Hline (a :: cur)), reverse_cons, <- app_assoc. done.
Qed.

(** [splitlines] gives back the lines of a text. *)
Lemma splitlines_text (ls : list string) :
  Forall one_line ls → Py.splitlines (text ls) = ls.
Proof.
  unfold Py.splitlines. induction 1 as [|line ls Hline _ IH]; [done|].
  cbn [text foldr]. fold (text ls).
  rewrite (splitlines_from_line line (text ls) Hline []), IH.
  by rewrite app_nil_l, string_of_list_ascii_of_string.
Qed.

End TextFacts.

(** X19. Whatever the file system does, the metrics [process_chunk]
    returns are consistent: the counts of error and of warning lines are
    between 0 and the count of lines. *)
Theorem process_chunk_metrics_bounds (file : Type)
    (open_r : string → outcome file) (seek : file → Z → outcome file)
    (read : file → Z → outcome (string * file)) (close : file → outcome unit)
    (filepath : string) (start size : Z) :
  ∃ m : Worker.metrics,
    Worker.process_chunk file open_r seek read close filepath start size = Ok m
    ∧ 0 <= Worker.errors m <= Worker.lines m
    ∧ 0 <= Worker.warnings m <= Worker.lines m.
Proof.
  unfold Worker.process_chunk, Worker.try_block, Worker.leave_with.
  destruct (open_r filepath) as [f|e]; [|by eexists].
  destruct (seek f start) as [f1|e]; [|destruct (close f); by eexists].
  destruct (read f1 size) as [[data f2]|e]; [|destruct (close f1); by eexists].
  pose proof (count_containing_bounds "ERROR" (Py.splitlines data)).
  pose proof (count_containing_bounds "WARNING" (Py.splitlines data)).
  destruct (close f2); by eexists.
Qed.

(** X20. When the data read is ASCII text made of lines that hold no line
    boundary character and each end with a line feed, [process_chunk]
    returns the number of those lines, the number of them in which "ERROR"
    occurs and the number of them in which "WARNING" occurs; [word in line]
    is true exactly when [word] occurs in [line]. *)
Theorem process_chunk_counts_lines (file : Type)
    (open_r : string → outcome file) (seek : file → Z → outcome file)
    (read : file → Z → outcome (string * file)) (close : file → outcome unit)
    (filepath : string) (start size : Z) (f f1 f2 : file) (ls : list string) :
  open_r filepath = Ok f → seek f start = Ok f1 → read f1 size = Ok (text ls, f2) →
  Forall plain_line ls →
  Worker.process_chunk file open_r seek read close filepath start size
  = Ok {| Worker.lines := Z.of_nat (length ls);
          Worker.errors :=
            Z.of_nat (length (filter (λ l, Py.contains "ERROR" l = true) ls));
          Worker.warnings :=
            Z.of_nat (length (filter (λ l, Py.contains "WARNING" l = true) ls)) |}
  ∧ ∀ word line,
      Py.contains word line = true
      ↔ ∃ pre post, line = String.append pre (String.append word post).
Proof.
  intros Hopen Hseek Hread Hplain. split; [|apply contains_spec].
  assert (Hls : Forall one_line ls).
  { eapply Forall_impl; [exact Hplain|]. intros line Hline.
    eapply Forall_impl; [exact Hline|]. by intros a [_ Ha]. }
  unfold Worker.process_chunk, Worker.try_block, Worker.leave_with.
  rewrite Hopen, Hseek, Hread, (splitlines_text ls Hls), !count_containing_filter.
  by destruct (close f2).
Qed.

Lemma process_chunk_counts_lines_witness :
  Worker.process_chunk MemFS.file MemFS.open_r MemFS.seek MemFS.read MemFS.close
    "app.log" 0 (-1)
  = Ok {| Worker.lines :=
            Z.of_nat (length ["INFO start"; "ERROR disk full"; "WARNING slow"; "ERROR again"]);
          Worker.errors :=
            Z.of_nat (length (filter (λ l, Py.contains "ERROR" l = true)
                                ["INFO start"; "ERROR disk full"; "WARNING slow";
                                 "ERROR again"]));
          Worker.warnings :=
            Z.of_nat (length (filter (λ l, Py.contains "WARNING" l = true)
                                ["INFO start"; "ERROR disk full"; "WARNING slow";
                                 "ERROR again"])) |}
  ∧ ∀ word line,
      Py.contains word line = true
      ↔ ∃ pre post, line = String.append pre (String.append word post).
Proof.
  apply (process_chunk_counts_lines MemFS.file MemFS.open_r MemFS.seek MemFS.read
           MemFS.close "app.log" 0 (-1) (MemFS.content, 0) (MemFS.content, 0)
           (MemFS.content, 52)
           ["INFO start"; "ERROR disk full"; "WARNING slow"; "ERROR again"]).
  - reflexivity.
  - reflexivity.
  - reflexivity.
  - unfold plain_line.
    lazymatch goal with |- ?G => exact (bool_decide_unpack G I) end.
Defined.

(** ** The worker and the coordinator together *)

Section WorkerCoordinatorFacts.

Lemma set_set {V : Type} (d : list (string * V)) (k : string) (v v' : V) :
  ODict.set k v' (ODict.set k v d) = ODict.set k v' d.
Proof.
  induction d as [|[k0 v0] d IH]; simpl.
  - by rewrite decide_True.
  - destruct (decide (k = k0)) as [->|Hne]; simpl.
    + by rewrite decide_True.
    + by rewrite decide_False, IH.
Qed.

Lemma mem_set {V : Type} (d : list (string * V)) (k : string) (v : V) :
  ODict.mem k (ODict.set k v d) = true.
Proof. apply mem_true. rewrite get_set_eq. by eexists. Qed.

(** A health report served twice is a health report served once. *)
Lemma health_twice (c : Coordinator) (w new_status : string) :
  (route (Health w new_status) (route (Health w new_status) c).1.2).1.2
  = (route (Health w new_status) c).1.2.
Proof.
  cbn [route]. rewrite !update_worker_health_full. cbn [fst snd].
  destruct (ODict.mem w (workers c)) eqn:Hmem.
  - cbn [workers set_workers]. rewrite mem_set, set_set. reflexivity.
  - by rewrite Hmem.
Qed.

Lemma serve_heartbeats (c : Coordinator) (w new_status : string) (n : nat) :
  serve (replicate (S n) (Health w new_status)) c = (route (Health w new_status) c).1.2.
Proof.
  revert c. induction n as [|n IH]; intros c; [done|].
  change (replicate (S (S n)) (Health w new_status))
    with (Health w new_status :: replicate (S n) (Health w new_status)).
  cbn [serve]. rewrite IH. apply health_twice.
Qed.

(** Without a registration request the registry stays empty. *)
Lemma serve_from_workers (reqs : list Request) :
  Forall from_worker reqs →
  ∀ c, workers c = [] → workers (serve reqs c) = [].
Proof.
  induction 1 as [|r reqs Hr _ IH]; intros c Hc; [done|].
  cbn [serve]. apply IH. destruct r as [w|w res|w st]; [done| |].
  - cbn [route].
    by destruct (receive_results_cases c w res) as [(items & _ & ->)|[_ ->]].
  - change (route (Health w st) c) with (update_worker_health w st c).
    rewrite update_worker_health_full. cbn [fst snd].
    unfold ODict.mem. by rewrite Hc.
Qed.

End WorkerCoordinatorFacts.

(** X21. [process_request] never fails: whatever the file system does,
    it answers 200 "Chunk processed" and posts one submission to the
    coordinator's address, under the worker's own id, holding the metrics of
    [process_chunk]; for an unreadable chunk these are all zero.  A
    coordinator that has served any routed requests answers that
    submission with 200. *)
Theorem process_request_always_answers (file : Type)
    (open_r : string → outcome file) (seek : file → Z → outcome file)
    (read : file → Z → outcome (string * file)) (close : file → outcome unit)
    (self : Worker.Worker) (filepath : string) (start size : Z) :
  ∃ m : Worker.metrics,
    Worker.process_request file open_r seek read close self filepath start size
    = Ok ({| resp_status := 200; resp_text := "Chunk processed" |},
          [(Worker.coordinator_url self,
            Submit (Worker.worker_id self) (Worker.metrics_json m))])
    ∧ Worker.process_chunk file open_r seek read close filepath start size = Ok m
    ∧ (Worker.unreadable file open_r seek read filepath start size →
       m = {| Worker.lines := 0; Worker.errors := 0; Worker.warnings := 0 |})
    ∧ ∀ (reqs : list Request) (p : Z),
        outcome_of (route (Submit (Worker.worker_id self) (Worker.metrics_json m)))
          (serve reqs (init p))
        = Ok received_response.
Proof.
  assert (Hacc : ∀ (m : Worker.metrics) (reqs : list Request) (p : Z),
            outcome_of (route (Submit (Worker.worker_id self) (Worker.metrics_json m)))
              (serve reqs (init p)) = Ok received_response).
  { intros m reqs p.
    destruct (served_results_are_lists reqs p (Worker.worker_id self)) as [items Hst].
    unfold outcome_of. cbn [route].
    by rewrite (receive_results_run _ _ items _ Hst). }
  unfold Worker.process_request, Worker.process_chunk, Worker.try_block,
    Worker.unreadable, Worker.leave_with.
  destruct (open_r filepath) as [f|e]; [|by eexists].
  destruct (seek f start) as [f1|e]; [|destruct (close f); by eexists].
  destruct (read f1 size) as [[data f2]|e]; destruct (close _); by eexists.
Qed.

(** X22. [worker.py] only ever sends submissions and reports of
    "healthy", never a registration.  A fresh coordinator that serves only
    such requests keeps an empty registry, and [distribute_work] then posts
    nothing, whatever the file. *)
Theorem worker_requests_never_register (reqs : list Request) (p : Z) :
  Forall from_worker reqs →
  workers (serve reqs (init p)) = []
  ∧ ∀ (getsize : jval → option Z) (filepath : jval),
      posts_of (distribute_work getsize filepath) (serve reqs (init p)) = [].
Proof.
  intros Hreqs.
  assert (Hw : workers (serve reqs (init p)) = []) by (by apply serve_from_workers).
  split; [done|]. intros getsize filepath. unfold posts_of.
  destruct (getsize filepath) as [n|] eqn:Hsize.
  - destruct (distribute_work_run getsize (serve reqs (init p)) filepath n Hsize)
      as (chunks & _ & ->).
    exact (slot_posts_no_workers _ filepath chunks Hw 0%nat).
  - by rewrite (distribute_work_oserror getsize _ filepath Hsize).
Qed.

Lemma worker_requests_never_register_witness :
  workers (serve [ (Worker.heartbeat worker1).2;
                   Submit "worker1" (Worker.metrics_json sample_metrics);
                   (Worker.heartbeat worker1).2 ] (init 8000)) = []
  ∧ ∀ (getsize : jval → option Z) (filepath : jval),
      posts_of (distribute_work getsize filepath)
        (serve [ (Worker.heartbeat worker1).2;
                 Submit "worker1" (Worker.metrics_json sample_metrics);
                 (Worker.heartbeat worker1).2 ] (init 8000)) = [].
Proof.
  apply worker_requests_never_register.
  repeat (apply Forall_cons; split); [reflexivity | by eexists | reflexivity | apply Forall_nil_2].
Defined.

(** X23. The heartbeats of [report_health] are idempotent: any number of
    them, one or more, leaves the coordinator as a single one does.  They
    never register the worker: on a coordinator where it is not registered
    they change nothing; where it is registered, it is healthy afterwards
    and the order of the registry is kept. *)
Theorem heartbeats_only_refresh (self : Worker.Worker) (n : nat) (c : Coordinator) :
  serve (snd <$> Worker.report_health self (S n)) c
  = state_after (update_worker_health (Worker.worker_id self) "healthy") c
  ∧ match ODict.get (Worker.worker_id self) (workers c) with
    | None => serve (snd <$> Worker.report_health self (S n)) c = c
    | Some _ =>
        healthy (serve (snd <$> Worker.report_health self (S n)) c)
          (Worker.worker_id self) = true
        ∧ ODict.keys (workers (serve (snd <$> Worker.report_health self (S n)) c))
          = ODict.keys (workers c)
    end.
Proof.
  assert (Hserve : serve (snd <$> Worker.report_health self (S n)) c
                   = state_after (update_worker_health (Worker.worker_id self) "healthy") c).
  { unfold Worker.report_health, Worker.heartbeat. rewrite fmap_replicate.
    apply serve_heartbeats. }
  split; [done|]. rewrite Hserve. unfold state_after.
  rewrite update_worker_health_full. cbn [fst snd].
  destruct (ODict.get (Worker.worker_id self) (workers c)) as [info|] eqn:Hget.
  - assert (Hmem : ODict.mem (Worker.worker_id self) (workers c) = true)
      by (apply mem_true; by eexists).
    rewrite Hmem. split.
    + unfold healthy. cbn [workers set_workers]. by rewrite get_set_eq.
    + cbn [workers set_workers]. apply keys_set_present. by eexists.
  - apply mem_false in Hget. by rewrite Hget.
Qed.

(** ** Lines cut by a chunk boundary *)

Section BoundaryFacts.

Lemma after_break_crlf (rest : string) :
  after_break "013" (String "010" rest) = rest.
Proof. reflexivity. Qed.

Lemma after_break_not_cr (a : ascii) (rest : string) :
  a ≠ "013"%char → after_break a rest = rest.
Proof.
  intros Ha. destruct a as [[] [] [] [] [] [] [] []]; try reflexivity.
  by destruct Ha.
Qed.

Lemma after_break_not_lf (a b : ascii) (rest : string) :
  b ≠ "010"%char → after_break a (String b rest) = String b rest.
Proof.
  intros Hb. destruct (Ascii.ascii_dec a "013") as [->|Ha];
    [|by apply after_break_not_cr].
  destruct b as [[] [] [] [] [] [] [] []]; try reflexivity.
  by destruct Hb.
Qed.

Lemma after_break_nil (a : ascii) : after_break a "" = ""%string.
Proof.
  destruct (Ascii.ascii_dec a "013") as [->|Ha]; [done | by apply after_break_not_cr].
Qed.

(** One step of [splitlines_from]. *)
Lemma splitlines_from_step (cur : list ascii) (a : ascii) (rest : string) :
  Py.splitlines_from cur (String a rest)
  = if Py.is_linebreak a
    then string_of_list_ascii (reverse cur) :: Py.splitlines_from [] (after_break a rest)
    else Py.splitlines_from (a :: cur) rest.
Proof.
  cbn [Py.splitlines_from]. destruct (Py.is_linebreak a); [|done].
  destruct (Ascii.ascii_dec a "013") as [->|Ha].
  - destruct rest as [|b rest]; [done|].
    destruct (Ascii.ascii_dec b "010") as [->|Hb]; [done|].
    rewrite after_break_not_lf by done.
    destruct b as [[] [] [] [] [] [] [] []]; try reflexivity. by destruct Hb.
  - rewrite after_break_not_cr by done.
    destruct a as [[] [] [] [] [] [] [] []]; try reflexivity. by destruct Ha.
Qed.

(** The number of lines depends on the line read so far only through
    whether there is one. *)
Lemma lines_cur (s : string) :
  ∀ cur cur' : list ascii,
    (cur = [] ↔ cur' = []) →
    length (Py.splitlines_from cur s) = length (Py.splitlines_from cur' s).
Proof.
  induction s as [|a s IH]; intros cur cur' Hcur.
  - destruct Hcur as [H1 H2]. destruct cur, cur'; try done.
    + discriminate (H1 eq_refl).
    + discriminate (H2 eq_refl).
  - rewrite !splitlines_from_step. destruct (Py.is_linebreak a); [done|].
    by apply IH.
Qed.

Lemma lines_pending (s : string) (x : ascii) (cur : list ascii) :
  (length (Py.splitlines_from [] s) ≤ length (Py.splitlines_from (x :: cur) s)
   ≤ length (Py.splitlines_from [] s) + 1)%nat.
Proof.
  destruct s as [|a s]; [simpl; lia|].
  rewrite !splitlines_from_step. destruct (Py.is_linebreak a); [cbn [length]; lia|].
  rewrite (lines_cur s (a :: x :: cur) [a]) by done. lia.
Qed.

(** Splitting a text in two and counting the lines of both parts counts
    every line, and at most one of them twice. *)
Lemma lines_of_parts (n : nat) :
  ∀ (a b : string) (cur : list ascii),
    (String.length a ≤ n)%nat →
    (length (Py.splitlines_from cur (String.append a b))
     ≤ length (Py.splitlines_from cur a) + length (Py.splitlines_from [] b)
     ≤ length (Py.splitlines_from cur (String.append a b)) + 1)%nat.
Proof.
  induction n as [|n IH]; intros a b cur Hlen.
  - destruct a; [|simpl in Hlen; lia].
    change (String.append "" b) with b.
    destruct cur as [|x cur]; [simpl; lia|].
    pose proof (lines_pending b x cur). simpl. lia.
  - destruct a as [|x a].
    { change (String.append "" b) with b.
      destruct cur as [|y cur]; [simpl; lia|].
      pose proof (lines_pending b y cur). simpl. lia. }
    change (String.append (String x a) b) with (String x (String.append a b)).
    rewrite !splitlines_from_step.
    simpl in Hlen. destruct (Py.is_linebreak x); [|apply IH; lia].
    cbn [length].
    destruct a as [|y a].
    + change (String.append "" b) with b. rewrite after_break_nil.
      destruct (Ascii.ascii_dec x "013") as [->|Hx];
        [|rewrite after_break_not_cr by done; simpl; lia].
      destruct b as [|z b]; [rewrite after_break_nil; simpl; lia|].
      destruct (Ascii.ascii_dec z "010") as [->|Hz];
        [|rewrite after_break_not_lf by done; simpl; lia].
      rewrite after_break_crlf, splitlines_from_step. simpl. lia.
    + change (String.append (String y a) b) with (String y (String.append a b)).
      destruct (Ascii.ascii_dec x "013") as [->|Hx].
      * destruct (Ascii.ascii_dec y "010") as [->|Hy].
        -- rewrite !after_break_crlf.
           pose proof (IH a b [] ltac:(simpl in Hlen; lia)). lia.
        -- rewrite !after_break_not_lf by done.
           pose proof (IH (String y a) b [] ltac:(simpl in *; lia)).
           change (String.append (String y a) b) with (String y (String.append a b)) in H.
           lia.
      * rewrite !after_break_not_cr by done.
        pose proof (IH (String y a) b [] ltac:(simpl in *; lia)).
        change (String.append (String y a) b) with (String y (String.append a b)) in H.
        lia.
Qed.

End BoundaryFacts.

(** X24. Counting lines chunk by chunk never loses a line and counts at
    most one line twice per cut: if two reads return the two parts of what
    a third read returns in one piece, the line counts of [process_chunk]
    for the parts add up to the line count for the whole, or to one
    more. *)
Theorem chunked_line_count (file : Type)
    (open_r : string → outcome file) (seek : file → Z → outcome file)
    (read : file → Z → outcome (string * file)) (close : file → outcome unit)
    (filepath : string) (f fa fb fw fa' fb' fw' : file)
    (start_a size_a start_b size_b start_w size_w : Z) (a b : string) :
  open_r filepath = Ok f →
  seek f start_a = Ok fa → read fa size_a = Ok (a, fa') →
  seek f start_b = Ok fb → read fb size_b = Ok (b, fb') →
  seek f start_w = Ok fw → read fw size_w = Ok (String.append a b, fw') →
  ∃ ma mb mw : Worker.metrics,
    Worker.process_chunk file open_r seek read close filepath start_a size_a = Ok ma
    ∧ Worker.process_chunk file open_r seek read close filepath start_b size_b = Ok mb
    ∧ Worker.process_chunk file open_r seek read close filepath start_w size_w = Ok mw
    ∧ Worker.lines mw <= Worker.lines ma + Worker.lines mb <= Worker.lines mw + 1.
Proof.
  intros Hopen Hsa Hra Hsb Hrb Hsw Hrw.
  unfold Worker.process_chunk, Worker.try_block, Worker.leave_with.
  rewrite Hopen, Hsa, Hra, Hsb, Hrb, Hsw, Hrw.
  pose proof (lines_of_parts (String.length a) a b [] ltac:(lia)) as Hparts.
  destruct (close fa'), (close fb'), (close fw'); do 3 eexists;
    (split; [reflexivity|]; split; [reflexivity|]; split; [reflexivity|];
     cbn [Worker.lines Worker.set_lines Worker.set_errors Worker.set_warnings];
     unfold Py.splitlines; lia).
Qed.

Lemma chunked_line_count_witness :
  ∃ ma mb mw : Worker.metrics,
    MemFS.process_chunk "app.log" 0 20 = Ok ma
    ∧ MemFS.process_chunk "app.log" 20 (-1) = Ok mb
    ∧ MemFS.process_chunk "app.log" 0 (-1) = Ok mw
    ∧ Worker.lines mw <= Worker.lines ma + Worker.lines mb <= Worker.lines mw + 1.
Proof.
  apply (chunked_line_count MemFS.file MemFS.open_r MemFS.seek MemFS.read MemFS.close
           "app.log" (MemFS.content, 0) (MemFS.content, 0) (MemFS.content, 20)
           (MemFS.content, 0) (MemFS.content, 20) (MemFS.content, 52) (MemFS.content, 52)
           0 20 20 (-1) 0 (-1)
           (String.substring 0 20 MemFS.content) (String.substring 20 32 MemFS.content));
    reflexivity.
Defined.

(** ** The balance of the round-robin *)

Section BalanceFacts.

Lemma length_filter_fmap {A B : Type} (f : A → B) (P : B → Prop) (Q : A → Prop)
    `{!∀ x, Decision (P x)} `{!∀ x, Decision (Q x)} (l : list A) :
  (∀ x, Q x ↔ P (f x)) →
  length (filter P (f <$> l)) = length (filter Q l).
Proof.
  intros HQ. induction l as [|x l IH]; [done|]. rewrite fmap_cons.
  destruct (decide (P (f x))) as [Hp|Hp].
  - rewrite filter_cons_True by done.
    rewrite (filter_cons_True Q) by (by apply HQ). cbn [length]. by rewrite IH.
  - rewrite filter_cons_False by done.
    rewrite (filter_cons_False Q) by (by rewrite HQ). done.
Qed.

(** Among the indices below [m], those of slot [j] number [m / n], plus
    one for the first [m mod n] slots. *)
Lemma slot_count (n m : nat) :
  (0 < n)%nat →
  ∃ q r : nat,
    m = (q * n + r)%nat ∧ (r < n)%nat
    ∧ ∀ j : nat, (j < n)%nat →
        length (filter (λ i : nat, (i mod n)%nat = j) (seq 0 m))
        = (q + if decide (j < r)%nat then 1 else 0)%nat.
Proof.
  intros Hn. induction m as [|m (q & r & Hm & Hr & Hcount)].
  - exists 0%nat, 0%nat. split_and!; [done | done |].
    intros j Hj. by rewrite decide_False by lia.
  - assert (Hmod : (m mod n)%nat = r).
    { rewrite Hm, Nat.add_comm, Nat.Div0.mod_add. by apply Nat.mod_small. }
    assert (Hstep : ∀ j, (j < n)%nat →
              length (filter (λ i : nat, (i mod n)%nat = j) (seq 0 (S m)))
              = (q + (if decide (j < r)%nat then 1 else 0)
                 + (if decide (r = j) then 1 else 0))%nat).
    { intros j Hj. rewrite seq_S, filter_app, length_app, (Hcount j Hj).
      f_equal. cbn [Nat.add]. destruct (decide (r = j)) as [Heq|Hne].
      - rewrite filter_cons_True by congruence. done.
      - rewrite filter_cons_False by congruence. done. }
    destruct (decide (S r < n)%nat) as [Hlt|Hge].
    + exists q, (S r). split_and!; [lia | done |].
      intros j Hj. rewrite (Hstep j Hj).
      repeat case_decide; lia.
    + exists (S q), 0%nat. split_and!; [lia | done |].
      intros j Hj. rewrite (Hstep j Hj).
      repeat case_decide; lia.
Qed.

(** The workers a round posts for when all are healthy. *)
Lemma round_workers (c : Coordinator) (filepath : jval) (chunks : list (Z * Z)) :
  all_healthy c → workers c ≠ [] →
  post_for <$> round_posts c filepath chunks
  = (λ i : nat, default "" (ODict.keys (workers c) !! (i mod length (workers c))%nat))
    <$> seq 0 (length chunks).
Proof.
  intros Hall Hne. rewrite (round_posts_all_healthy c filepath chunks Hall Hne).
  rewrite fmap_imap. rewrite <- imap_seq_0. by apply imap_ext.
Qed.

End BalanceFacts.

(** X25. The round-robin is balanced: when all registered workers are
    healthy and no id is registered twice, the numbers of chunks that
    [distribute_work] posts for any two registered workers differ by at
    most one. *)
Theorem distribute_work_balanced (getsize : jval → option Z) (c : Coordinator)
    (filepath : jval) (n : Z) (w w' : string) :
  getsize filepath = Some n →
  all_healthy c →
  NoDup (ODict.keys (workers c)) →
  w ∈ ODict.keys (workers c) → w' ∈ ODict.keys (workers c) →
  (load w (posts_of (distribute_work getsize filepath) c)
   ≤ load w' (posts_of (distribute_work getsize filepath) c) + 1)%nat.
Proof.
  intros Hsize Hall Hnodup Hw Hw'.
  assert (Hne : workers c ≠ []) by (intros Heq; rewrite Heq in Hw; by inversion Hw).
  destruct (distribute_work_run getsize c filepath n Hsize) as (chunks & _ & Hrun).
  unfold posts_of. rewrite Hrun. cbn [snd].
  assert (Hlen : (0 < length (workers c))%nat) by (destruct (workers c); [done | simpl; lia]).
  destruct (slot_count (length (workers c)) (length chunks) Hlen)
    as (q & r & _ & _ & Hcount).
  assert (Hload : ∀ v, v ∈ ODict.keys (workers c) →
            ∃ j : nat, (j < length (workers c))%nat
              ∧ load v (round_posts c filepath chunks)
                = length (filter (λ i : nat, (i mod length (workers c))%nat = j)
                            (seq 0 (length chunks)))).
  { intros v Hv. apply list_elem_of_lookup_1 in Hv as [j Hj].
    exists j. split.
    { apply lookup_lt_Some in Hj. unfold ODict.keys in Hj. by rewrite length_fmap in Hj. }
    unfold load.
    transitivity (length (filter (λ x, x = v) (post_for <$> round_posts c filepath chunks))).
    { symmetry. by apply length_filter_fmap. }
    rewrite (round_workers c filepath chunks Hall Hne).
    apply length_filter_fmap. intros i.
    destruct (slot_worker c i Hne) as (u & Hu & _). rewrite Hu. simpl. split; last first.
    - intros ->. by apply (NoDup_lookup _ _ _ _ Hnodup Hu Hj).
    - intros Hi. rewrite Hi in Hu. congruence. }
  destruct (Hload w Hw) as (j & Hj & ->). destruct (Hload w' Hw') as (j' & Hj' & ->).
  rewrite (Hcount j Hj), (Hcount j' Hj'). repeat case_decide; lia.
Qed.

Lemma distribute_work_balanced_witness :
  (load "worker3"
     (posts_of (distribute_work two_chunk_fs (JStr "app.log"))
        (three_registered 8000 "worker1" "worker2" "worker3"))
   ≤ load "worker1"
       (posts_of (distribute_work two_chunk_fs (JStr "app.log"))
          (three_registered 8000 "worker1" "worker2" "worker3")) + 1)%nat.
Proof.
  apply (distribute_work_balanced two_chunk_fs _ (JStr "app.log") (2 * chunk_size)).
  - reflexivity.
  - intros v Hv. simpl in Hv.
    repeat (apply elem_of_cons in Hv as [->|Hv]; [reflexivity|]).
    by apply not_elem_of_nil in Hv.
  - lazymatch goal with |- ?G => exact (bool_decide_unpack G I) end.
  - lazymatch goal with |- ?G => exact (bool_decide_unpack G I) end.
  - lazymatch goal with |- ?G => exact (bool_decide_unpack G I) end.
Defined.

(** ** Rounds of recovery *)

Section RoundFacts.
Variable getsize : jval → option Z.

(** When all workers are healthy a round holds the chunks of the plan. *)
Lemma round_covers (c : Coordinator) (filepath : jval) (chunks : list (Z * Z)) :
  all_healthy c → workers c ≠ [] →
  chunk_of <$> round_posts c filepath chunks = chunks.
Proof.
  intros Hall Hne. rewrite (round_posts_all_healthy c filepath chunks Hall Hne).
  apply list_eq. intros i. rewrite list_lookup_fmap, list_lookup_imap.
  by destruct (chunks !! i) as [[start size]|].
Qed.

(** The loop of [handle_worker_failure] over results that each name a
    file whose size can be read: one round per result, in order. *)
Lemma recovery_loop_rounds (c : Coordinator) (items : list jobject) :
  (∀ r, r ∈ items →
        ∃ filepath n, r !! "filepath" = Some filepath ∧ getsize filepath = Some n) →
  ∀ c0 : Coordinator,
    workers c0 = workers c → port c0 = port c →
    ∃ (rounds : list (list Post)) (c' : Coordinator),
      for_each items
        (λ result,
           match result !! "filepath" with
           | Some filepath => distribute_work getsize filepath
           | None => raise (KeyError "filepath")
           end) c0
      = (Ok tt, c', mjoin rounds)
      ∧ Forall2 (round_of getsize c) items rounds
      ∧ workers c' = workers c ∧ port c' = port c ∧ results c' = results c0.
Proof.
  induction items as [|r items IH]; intros Hall c0 Hw0 Hp0.
  - exists [], c0. split_and!; try done; apply Forall2_nil_2.
  - destruct (Hall r (list_elem_of_here _ _)) as (filepath & n & Hfp & Hsize).
    destruct (distribute_work_run getsize c0 filepath n Hsize) as (chunks & Hplan & Hrun).
    destruct (IH (λ r' Hr', Hall r' (list_elem_of_further _ _ _ Hr'))
                (set_file_chunks chunks c0) Hw0 Hp0)
      as (rounds & c' & Hloop & Hrounds & Hw & Hp & Hr).
    exists (round_posts c filepath chunks :: rounds), c'. split_and!; try done.
    + rewrite for_each_cons.
      erewrite bind_ok_ok; [ | rewrite Hfp; exact Hrun | exact Hloop ].
      by rewrite (round_posts_ext c0 c filepath chunks Hw0 Hp0).
    + constructor; [|done].
      exists filepath, n, chunks. split_and!; try done.
      by apply round_covers.
Qed.

End RoundFacts.

(** C5, as the code has it. [handle_worker_failure] always ends: for a
    worker holding [items] in [self.results], each naming a file whose size
    can be read, it removes the worker's entry and runs one round of
    [distribute_work] per stored result, in order.  The round of a result
    plans the file the result names and posts the chunks whose slot holds a
    healthy worker, skipping the others; when the registry is not empty
    and every registered worker is healthy it posts every chunk of the plan
    once.  There is no attempt counter, bound or mark of a failed chunk.
    [process_file] called afterwards still returns its aggregate. *)
Theorem handle_worker_failure_one_round_per_result
    (getsize : jval → option Z) (c : Coordinator) (worker_id : string)
    (items : list jobject) (path : string) :
  results c !! worker_id = Some (PList items) →
  (∀ r, r ∈ items →
        ∃ filepath n, r !! "filepath" = Some filepath ∧ getsize filepath = Some n) →
  ∃ (rounds : list (list Post)) (c' : Coordinator),
    handle_worker_failure getsize worker_id c = (Ok tt, c', mjoin rounds)
    ∧ Forall2 (round_of getsize c) items rounds
    ∧ workers c' = workers c
    ∧ results c' = delete worker_id (results c)
    ∧ outcome_of (process_file path) c' = Ok fixed_aggregate.
Proof.
  intros Hres Hall.
  destruct (recovery_loop_rounds getsize c items Hall
              (set_results (delete worker_id (results c)) c) eq_refl eq_refl)
    as (rounds & c' & Hloop & Hrounds & Hw & _ & Hr).
  exists rounds, c'. split_and!; try done.
  unfold handle_worker_failure.
  erewrite bind_ok_ok; [ | reflexivity | ].
  2:{ cbv zeta. rewrite Hres. cbn [default from_option]. unfold id.
      erewrite bind_ok_ok; [ | reflexivity | exact Hloop ]. reflexivity. }
  reflexivity.
Qed.

Lemma handle_worker_failure_one_round_per_result_witness :
  ∃ (rounds : list (list Post)) (c' : Coordinator),
    handle_worker_failure three_chunk_fs "w1"
      (failed_worker "w1" "w2" [result_for "app.log"; result_for "app.log"])
    = (Ok tt, c', mjoin rounds)
    ∧ Forall2 (round_of three_chunk_fs
                 (failed_worker "w1" "w2" [result_for "app.log"; result_for "app.log"]))
        [result_for "app.log"; result_for "app.log"] rounds
    ∧ workers c'
      = workers (failed_worker "w1" "w2" [result_for "app.log"; result_for "app.log"])
    ∧ results c'
      = delete "w1"
          (results (failed_worker "w1" "w2" [result_for "app.log"; result_for "app.log"]))
    ∧ outcome_of (process_file "test_vectors/logs/normal.log") c' = Ok fixed_aggregate.
Proof.
  apply handle_worker_failure_one_round_per_result.
  - reflexivity.
  - intros r Hr. exists (JStr "app.log"), 3000000.
    assert (r = result_for "app.log") as ->.
    { repeat (apply elem_of_cons in Hr as [Heq|Hr]; [exact Heq|]).
      by apply not_elem_of_nil in Hr. }
    by split.
Defined.
